(** * Creative Content Studio: the agent loop of [ContentStudioAgent]

    A shallow embedding of the two client modules

      - [Python-Application/content-studio-client.py]
      - [Python_Application/content_studio_client.py]

    Both define a class [ContentStudioAgent] with the methods [call_tool]
    and [process_query]; only the first one defines
    [format_tools_for_claude].

    Python strings are modelled by [string], one [ascii] per code point
    (so the code points U+0000 to U+00FF), Python [int] by [Z], Python
    lists by [list], the objects of the [mcp] and [anthropic] packages by
    records and inductive types with the attributes the code reads.

    Effects are explicit: a computation runs in a [World] that holds the
    agent object ([self]) and the chronological trace of its interactions
    (requests to the model backend, [call_tool] invocations, calls sent
    to the tool host), and either returns a value or raises an exception.
    The exceptions of the model are instances of Python's [Exception],
    the class that [except Exception] catches.  The model backend is a
    function that answers every request: a request that raises (a
    network or API error) is outside the model, and what is proved of
    [process_query] is proved of the queries whose requests are all
    answered. *)

From Stdlib Require Import List String Ascii ZArith Lia Bool DecimalString.
Import ListNotations.
Local Open Scope string_scope.
Local Set Warnings "-register-all".

(* ================================================================== *)
(** ** JSON values and [json.dumps] *)

Module PyJson.

Inductive json : Type :=
| JNull
| JBool (b : bool)
| JInt (z : Z)
| JStr (s : string)
| JArr (items : list json)
| JObj (fields : list (string * json)).

Definition hex_digit (n : N) : ascii :=
  match n with
  | 0%N => "0" | 1%N => "1" | 2%N => "2" | 3%N => "3"
  | 4%N => "4" | 5%N => "5" | 6%N => "6" | 7%N => "7"
  | 8%N => "8" | 9%N => "9" | 10%N => "a" | 11%N => "b"
  | 12%N => "c" | 13%N => "d" | 14%N => "e" | _ => "f"
  end%char.

Definition dquote : ascii := ascii_of_nat 34.
Definition backslash : ascii := ascii_of_nat 92.

Definition str1 (c : ascii) : string := String c EmptyString.

(** [ESCAPE_DCT] and the [\uXXXX] fallback of [json.encoder]: with
    [ensure_ascii] (the default) every character outside [' '..'~'], and
    the two characters double quote and backslash, is escaped. *)
Definition escape_char (c : ascii) : string :=
  let n := N_of_ascii c in
  if (n =? 34)%N then String backslash (str1 dquote)
  else if (n =? 92)%N then String backslash (str1 backslash)
  else if (n =? 8)%N then String backslash "b"
  else if (n =? 12)%N then String backslash "f"
  else if (n =? 10)%N then String backslash "n"
  else if (n =? 13)%N then String backslash "r"
  else if (n =? 9)%N then String backslash "t"
  else if ((32 <=? n) && (n <=? 126))%N then str1 c
  else String backslash
         (String "u" (String "0" (String "0"
           (String (hex_digit (n / 16)) (str1 (hex_digit (n mod 16))))))).

Fixpoint escape (s : string) : string :=
  match s with
  | EmptyString => EmptyString
  | String c rest => escape_char c ++ escape rest
  end.

Definition encode_string (s : string) : string :=
  String dquote (escape s ++ str1 dquote).

(** [json.dumps] with its default separators [", "] and [": "]. *)
Fixpoint dumps (j : json) : string :=
  match j with
  | JNull => "null"
  | JBool true => "true"
  | JBool false => "false"
  | JInt z => NilZero.string_of_int (Z.to_int z)
  | JStr s => encode_string s
  | JArr items => "[" ++ String.concat ", " (map dumps items) ++ "]"
  | JObj fields =>
      "{" ++ String.concat ", "
               (map (fun kv => encode_string (fst kv) ++ ": " ++ dumps (snd kv))
                    fields)
          ++ "}"
  end.

End PyJson.

Import PyJson.

(* ================================================================== *)
(** ** Data model *)

(** An MCP tool as returned by [session.list_tools()]. *)
Record Tool : Type := mkTool {
  tool_name : string;
  tool_description : string;
  tool_inputSchema : json
}.

(** The dict built by [format_tools_for_claude] for one tool. *)
Record ClaudeTool : Type := mkClaudeTool {
  ct_name : string;
  ct_description : string;
  ct_input_schema : json
}.

(** Content blocks.  [TextBlock] and [ToolUseBlock] are the blocks of a
    model response that the loop inspects; [OtherBlock] is any block of a
    response that has neither the type ["tool_use"] nor a [text]
    attribute (a thinking block, say); [ToolResultBlock] is the dict
    [{"type": "tool_result", "tool_use_id": ..., "content": ...}]. *)
Inductive ContentBlock : Type :=
| TextBlock (text : string)
| ToolUseBlock (id name : string) (input : json)
| ToolResultBlock (tool_use_id content : string)
| OtherBlock (data : string).

Inductive Content : Type :=
| PlainText (s : string)
| Blocks (blocks : list ContentBlock).

Record Message : Type := mkMessage {
  role : string;
  content : Content
}.

(** What [anthropic_client.messages.create] returns. *)
Record Response : Type := mkResponse {
  stop_reason : option string;
  resp_content : list ContentBlock
}.

(** Elements of [result.content] of a tool host result: [TextItem] has a
    [text] attribute, [OtherItem cls] is an object of class [cls] without
    one (an image, an embedded resource). *)
Inductive ResultItem : Type :=
| TextItem (text : string)
| OtherItem (cls : string).

(** The object returned by [session.call_tool]: [cr_content = None] when
    the object has no [content] attribute; [cr_str] is [str(result)]. *)
Record CallToolResult : Type := mkCallToolResult {
  cr_content : option (list ResultItem);
  cr_str : string
}.

(** Exceptions: the class name and [str(e)]. *)
Record exn : Type := mkExn {
  exn_class : string;
  exn_str : string
}.

Inductive HostOutcome : Type :=
| HostReturns (r : CallToolResult)
| HostRaises (e : exn).

(** The interactions of the agent with its collaborators, in the order
    they happen: a round trip to the model backend (the request and the
    response it got), an invocation of the method [call_tool], a call
    sent to the tool host. *)
Inductive event : Type :=
| EvRequest (messages : list Message) (tools : list ClaudeTool)
            (response : Response)
| EvCallTool (tool_name : string) (tool_input : json)
| EvHostCall (tool_name : string) (arguments : json).

(** A connected [ClientSession]: its answer may depend on everything
    that happened before. *)
Definition Session : Type := list event -> string -> json -> HostOutcome.

(** The module-level [anthropic_client]. *)
Definition Backend : Type :=
  list event -> list Message -> list ClaudeTool -> Response.

(** The attributes that [__init__] gives an agent. *)
Record Agent : Type := mkAgent {
  session : option Session;
  available_tools : list Tool
}.

Record World : Type := mkWorld {
  self : Agent;
  trace : list event
}.

(** The two modules of the repository that define [ContentStudioAgent]. *)
Inductive ClientModule : Type :=
| HyphenClient       (* Python-Application/content-studio-client.py *)
| UnderscoreClient.  (* Python_Application/content_studio_client.py *)

(** The names bound in the class body of each module. *)
Definition class_methods (m : ClientModule) : list string :=
  match m with
  | HyphenClient =>
      ["__init__"; "format_tools_for_claude"; "call_tool";
       "process_query"; "interactive_mode"]
  | UnderscoreClient =>
      ["__init__"; "connect_to_server"; "call_tool"; "process_query";
       "cleanup"; "interactive_mode"]
  end.

Definition has_method (m : ClientModule) (name : string) : bool :=
  existsb (String.eqb name) (class_methods m).

(* ================================================================== *)
(** ** The monad of agent computations *)

Inductive result (A : Type) : Type :=
| Ok (a : A)
| Raise (e : exn).
Arguments Ok {A} a.
Arguments Raise {A} e.

Definition M (A : Type) : Type := World -> result A * World.

Definition ret {A} (a : A) : M A := fun w => (Ok a, w).

Definition bind {A B} (c : M A) (k : A -> M B) : M B :=
  fun w =>
    match c w with
    | (Ok a, w') => k a w'
    | (Raise e, w') => (Raise e, w')
    end.

Definition raise {A} (e : exn) : M A := fun w => (Raise e, w).

Definition try_except {A} (body : M A) (handler : exn -> M A) : M A :=
  fun w =>
    match body w with
    | (Ok a, w') => (Ok a, w')
    | (Raise e, w') => handler e w'
    end.

Definition get_self : M Agent := fun w => (Ok (self w), w).

(** The world after one more interaction. *)
Definition add_event (w : World) (e : event) : World :=
  mkWorld (self w) (trace w ++ [e]).

Definition add_events (w : World) (evs : list event) : World :=
  mkWorld (self w) (trace w ++ evs).

Definition emit (e : event) : M unit :=
  fun w => (Ok tt, add_event w e).

Declare Scope agent_scope.
Delimit Scope agent_scope with agent.
Notation "x <- c ;; k" := (bind c (fun x => k))
  (at level 100, c at next level, right associativity) : agent_scope.
Notation "c ;;; k" := (bind c (fun _ => k))
  (at level 100, right associativity) : agent_scope.
Local Open Scope agent_scope.

Definition AttributeError (obj attr : string) : exn :=
  mkExn "AttributeError"
        ("'" ++ obj ++ "' object has no attribute '" ++ attr ++ "'").

(* ================================================================== *)
(** ** [format_tools_for_claude] (HyphenClient only) *)

(** The loop [for tool in self.available_tools: ... claude_tools.append]. *)
Fixpoint format_tools_loop (tools : list Tool) (claude_tools : list ClaudeTool)
  : list ClaudeTool :=
  match tools with
  | [] => claude_tools
  | tool :: rest =>
      let claude_tool :=
        mkClaudeTool (tool_name tool) (tool_description tool)
                     (tool_inputSchema tool) in
      format_tools_loop rest (claude_tools ++ [claude_tool])%list
  end.

Definition format_tools_for_claude : M (list ClaudeTool) :=
  agent <- get_self ;;
  ret (format_tools_loop (available_tools agent) []).

(** [self.format_tools_for_claude()] as written in [process_query]: the
    attribute is looked up first, on an object whose class may not
    define it. *)
Definition call_format_tools_for_claude (m : ClientModule)
  : M (list ClaudeTool) :=
  if has_method m "format_tools_for_claude"
  then format_tools_for_claude
  else raise (AttributeError "ContentStudioAgent" "format_tools_for_claude").

(* ================================================================== *)
(** ** [call_tool] *)

(** [await self.session.call_tool(tool_name, arguments=tool_input)] *)
Definition session_call_tool (tool_name : string) (tool_input : json)
  : M CallToolResult :=
  agent <- get_self ;;
  match session agent with
  | None => raise (AttributeError "NoneType" "call_tool")
  | Some host =>
      fun w =>
        let w' := add_event w (EvHostCall tool_name tool_input) in
        match host (trace w) tool_name tool_input with
        | HostReturns r => (Ok r, w')
        | HostRaises e => (Raise e, w')
        end
  end.

(** [item.text] *)
Definition item_text (item : ResultItem) : M string :=
  match item with
  | TextItem text => ret text
  | OtherItem cls => raise (AttributeError cls "text")
  end.

(** The body of the [try] block. *)
Definition call_tool_try (tool_name : string) (tool_input : json) : M string :=
  result <- session_call_tool tool_name tool_input ;;
  match cr_content result with
  | Some (first :: _) => item_text first
  | _ => ret (cr_str result)
  end.

Definition error_payload (e : exn) : string :=
  dumps (JObj [("status", JStr "error");
               ("message", JStr ("Tool execution failed: " ++ exn_str e))]).

Definition call_tool (tool_name : string) (tool_input : json) : M string :=
  emit (EvCallTool tool_name tool_input) ;;;
  try_except (call_tool_try tool_name tool_input)
             (fun e => ret (error_payload e)).

(* ================================================================== *)
(** ** [process_query] *)

(** [response.stop_reason == s] *)
Definition stop_reason_is (r : option string) (s : string) : bool :=
  match r with
  | Some x => String.eqb x s
  | None => false
  end.

(** A stop reason inside an f-string. *)
Definition format_stop_reason (r : option string) : string :=
  match r with
  | Some x => x
  | None => "None"
  end.

(** The three [return] statements of [process_query]. *)
Inductive AgentOutcome : Type :=
| Completed (final_response : string)
| Failed (stop_reason : option string)
| Exhausted.

(** The string each of them returns. *)
Definition outcome_str (o : AgentOutcome) : string :=
  match o with
  | Completed final_response => final_response
  | Failed r => "Agent stopped unexpectedly: " ++ format_stop_reason r
  | Exhausted => "Agent reached maximum iterations without completing task"
  end.

Definition user_message (user_query : string) : Message :=
  mkMessage "user" (PlainText user_query).

Definition assistant_message (blocks : list ContentBlock) : Message :=
  mkMessage "assistant" (Blocks blocks).

Definition tool_results_message (tool_results : list ContentBlock) : Message :=
  mkMessage "user" (Blocks tool_results).

(** The loop of the [tool_use] branch:
    [for block in response.content: if block.type == "tool_use": ...] *)
Fixpoint execute_tools (blocks : list ContentBlock)
         (tool_results : list ContentBlock) : M (list ContentBlock) :=
  match blocks with
  | [] => ret tool_results
  | ToolUseBlock id name input :: rest =>
      result <- call_tool name input ;;
      execute_tools rest (tool_results ++ [ToolResultBlock id result])%list
  | _ :: rest => execute_tools rest tool_results
  end.

(** The loop of the [end_turn] branch:
    [for block in response.content: if hasattr(block, "text"): ...] *)
Fixpoint collect_text (blocks : list ContentBlock) (final_response : string)
  : string :=
  match blocks with
  | [] => final_response
  | TextBlock text :: rest => collect_text rest (final_response ++ text)
  | _ :: rest => collect_text rest final_response
  end.

Section ProcessQuery.

(** The module-level [anthropic_client]. *)
Variable anthropic_client : Backend.

(** [anthropic_client.messages.create(..., tools=tools, messages=messages)] *)
Definition messages_create (messages : list Message) (tools : list ClaudeTool)
  : M Response :=
  fun w =>
    let response := anthropic_client (trace w) messages tools in
    (Ok response, add_event w (EvRequest messages tools response)).

(** [for iteration in range(max_iterations): ...], with the local
    variable [messages] and the iterations that remain.  The result
    carries [messages] as it is when the method returns. *)
Fixpoint agent_loop (m : ClientModule) (iterations : nat)
         (messages : list Message) : M (AgentOutcome * list Message) :=
  match iterations with
  | O => ret (Exhausted, messages)
  | S remaining =>
      tools <- call_format_tools_for_claude m ;;
      response <- messages_create messages tools ;;
      if stop_reason_is (stop_reason response) "tool_use" then
        let messages :=
          (messages ++ [assistant_message (resp_content response)])%list in
        tool_results <- execute_tools (resp_content response) [] ;;
        let messages :=
          (messages ++ [tool_results_message tool_results])%list in
        agent_loop m remaining messages
      else if stop_reason_is (stop_reason response) "end_turn" then
        ret (Completed (collect_text (resp_content response) EmptyString),
             messages)
      else
        ret (Failed (stop_reason response), messages)
  end.

Definition run_query (m : ClientModule) (user_query : string)
           (max_iterations : Z) : M (AgentOutcome * list Message) :=
  agent_loop m (Z.to_nat max_iterations) [user_message user_query].

Definition process_query (m : ClientModule) (user_query : string)
           (max_iterations : Z) : M string :=
  r <- run_query m user_query max_iterations ;;
  ret (outcome_str (fst r)).

End ProcessQuery.

(* ================================================================== *)
(** ** Observations on blocks, transcripts and traces *)

Definition is_tool_use (b : ContentBlock) : bool :=
  match b with
  | ToolUseBlock _ _ _ => true
  | _ => false
  end.

(** The [(id, name, input)] of the tool-use blocks, in block order. *)
Fixpoint tool_uses (blocks : list ContentBlock)
  : list (string * string * json) :=
  match blocks with
  | [] => []
  | ToolUseBlock id name input :: rest => (id, name, input) :: tool_uses rest
  | _ :: rest => tool_uses rest
  end.

Definition tool_use_ids (blocks : list ContentBlock) : list string :=
  map (fun u => fst (fst u)) (tool_uses blocks).

Definition tool_use_calls (blocks : list ContentBlock)
  : list (string * json) :=
  map (fun u => (snd (fst u), snd u)) (tool_uses blocks).

(** The [tool_use_id] of a block, when it is a tool result. *)
Definition result_id (b : ContentBlock) : option string :=
  match b with
  | ToolResultBlock tool_use_id _ => Some tool_use_id
  | _ => None
  end.

(** The texts of the text blocks, in block order. *)
Fixpoint texts (blocks : list ContentBlock) : list string :=
  match blocks with
  | [] => []
  | TextBlock text :: rest => text :: texts rest
  | _ :: rest => texts rest
  end.

(** The transcripts submitted to the model backend, oldest first. *)
Fixpoint requests (evs : list event) : list (list Message) :=
  match evs with
  | [] => []
  | EvRequest messages _ _ :: rest => messages :: requests rest
  | _ :: rest => requests rest
  end.

(** The responses of the model backend, oldest first. *)
Fixpoint responses (evs : list event) : list Response :=
  match evs with
  | [] => []
  | EvRequest _ _ response :: rest => response :: responses rest
  | _ :: rest => responses rest
  end.

(** The [call_tool] invocations, oldest first. *)
Fixpoint call_tool_calls (evs : list event) : list (string * json) :=
  match evs with
  | [] => []
  | EvCallTool name input :: rest => (name, input) :: call_tool_calls rest
  | _ :: rest => call_tool_calls rest
  end.

(** The projection that [format_tools_for_claude] is meant to be. *)
Definition to_claude_tool (tool : Tool) : ClaudeTool :=
  mkClaudeTool (tool_name tool) (tool_description tool)
               (tool_inputSchema tool).

(** One dispatching phase, call by call:
    [dispatched w blocks results evs] holds when running [call_tool] on
    the tool-use blocks of [blocks], from left to right and starting in
    the world [w], adds the events [evs] to the trace, and [results]
    lists, in the same order, one tool result per tool-use block, with
    the block's id and the string its call returned. *)
Inductive dispatched
  : World -> list ContentBlock -> list ContentBlock -> list event -> Prop :=
| dispatched_nil w :
    dispatched w [] [] []
| dispatched_call w id name input s evs1 rest results evs2 :
    call_tool name input w = (Ok s, add_events w evs1) ->
    dispatched (add_events w evs1) rest results evs2 ->
    dispatched w (ToolUseBlock id name input :: rest)
               (ToolResultBlock id s :: results) (evs1 ++ evs2)
| dispatched_skip w b rest results evs :
    is_tool_use b = false ->
    dispatched w rest results evs ->
    dispatched w (b :: rest) results evs.

(** A tool-results message answers an assistant message: same ids, same
    order, one result per tool use and nothing else. *)
Definition answers (assistant results : Message) : Prop :=
  exists blocks tool_results,
    assistant = assistant_message blocks /\
    results = tool_results_message tool_results /\
    map result_id tool_results = map Some (tool_use_ids blocks).


(** [t'] is [t] with whole messages appended at its end. *)
Definition extends (t t' : list Message) : Prop :=
  exists appended, t' = (t ++ appended)%list.

(** Every transcript of the list extends the one before it, the first
    one extends [t]. *)
Fixpoint grows_from (t : list Message) (later : list (list Message)) : Prop :=
  match later with
  | [] => True
  | t' :: rest => extends t t' /\ grows_from t' rest
  end.

(** What the specification says [call_tool] returns for a successful
    host result: the text of the first element that has one, else
    [str(result)]. *)
Fixpoint first_text (items : list ResultItem) : option string :=
  match items with
  | [] => None
  | TextItem text :: _ => Some text
  | OtherItem _ :: rest => first_text rest
  end.

Definition first_text_or_str (r : CallToolResult) : string :=
  match cr_content r with
  | Some items =>
      match first_text items with
      | Some text => text
      | None => cr_str r
      end
  | None => cr_str r
  end.

Section Runs.

Variable anthropic_client : Backend.

(** The outcome of a turn whose response does not ask for tools. *)
Definition terminal_outcome (response : Response) : AgentOutcome :=
  if stop_reason_is (stop_reason response) "end_turn"
  then Completed (String.concat EmptyString (texts (resp_content response)))
  else Failed (stop_reason response).

(** The runs of the loop, turn by turn:
    [run m n messages w o messages' evs] holds when the loop of module
    [m], with [n] iterations left, the transcript [messages] and the
    world [w], adds the events [evs] to the trace and returns the
    outcome [o] with the transcript [messages']. *)
Inductive run (m : ClientModule)
  : nat -> list Message -> World -> AgentOutcome -> list Message
    -> list event -> Prop :=
| run_exhausted messages w :
    run m 0 messages w Exhausted messages []
| run_tool_use n messages w tools response results evs1 o messages' evs2 :
    call_format_tools_for_claude m w = (Ok tools, w) ->
    response = anthropic_client (trace w) messages tools ->
    stop_reason response = Some "tool_use" ->
    dispatched (add_events w [EvRequest messages tools response])
               (resp_content response) results evs1 ->
    run m n (messages ++ [assistant_message (resp_content response);
                          tool_results_message results])%list
        (add_events w (EvRequest messages tools response :: evs1))
        o messages' evs2 ->
    run m (S n) messages w o messages'
        (EvRequest messages tools response :: evs1 ++ evs2)
| run_terminal n messages w tools response :
    call_format_tools_for_claude m w = (Ok tools, w) ->
    response = anthropic_client (trace w) messages tools ->
    stop_reason response <> Some "tool_use" ->
    run m (S n) messages w (terminal_outcome response) messages
        [EvRequest messages tools response].

End Runs.

(* ================================================================== *)
(** ** Sample collaborators *)

Module Samples.

(** A backend that plays a script: its k-th response is the k-th entry,
    and [end_turn] without content once the script is over. *)
Definition scripted (script : list Response) : Backend :=
  fun tr _ _ =>
    nth (List.length (responses tr)) script (mkResponse (Some "end_turn") []).

(** A tool host with a QR-code tool that answers with a text element, a
    thumbnail tool that answers with an image followed by a text, a tool
    that answers without any content, and a failure on any other name. *)
Definition studio_host : Session :=
  fun _ name _ =>
    if String.eqb name "generate_qr_code" then
      HostReturns (mkCallToolResult (Some [TextItem "qr.png"]) "CallToolResult")
    else if String.eqb name "generate_thumbnail" then
      HostReturns
        (mkCallToolResult (Some [OtherItem "ImageContent"; TextItem "thumb.png"])
                          "CallToolResult")
    else if String.eqb name "ping" then
      HostReturns (mkCallToolResult (Some []) "CallToolResult")
    else HostRaises (mkExn "McpError" "Unknown tool").

Definition qr_tool : Tool :=
  mkTool "generate_qr_code" "Generate a QR code"
         (JObj [("type", JStr "object")]).

Definition thumbnail_tool : Tool :=
  mkTool "generate_thumbnail" "Generate a thumbnail"
         (JObj [("type", JStr "object")]).

Definition connected : World :=
  mkWorld (mkAgent (Some studio_host) [qr_tool; thumbnail_tool]) [].

Definition qr_input : json := JObj [("url", JStr "https://example.com")].

Definition wants_qr : Response :=
  mkResponse (Some "tool_use")
             [TextBlock "Generating."; ToolUseBlock "toolu_1" "generate_qr_code" qr_input].

Definition here_it_is : Response :=
  mkResponse (Some "end_turn") [TextBlock "Here is your "; TextBlock "QR code."].

Definition cut_short : Response :=
  mkResponse (Some "max_tokens") [TextBlock "Here is"].

Definition qr_query : string := "Generate a QR code for https://example.com".

Definition qr_script : list Response := [wants_qr; here_it_is].

Definition qr_tools : list ClaudeTool :=
  map to_claude_tool [qr_tool; thumbnail_tool].

(** The first turn of [qr_query] when the backend answers [wants_qr]. *)
Definition qr_first_turn : list event :=
  [EvRequest [user_message qr_query] qr_tools wants_qr;
   EvCallTool "generate_qr_code" qr_input;
   EvHostCall "generate_qr_code" qr_input].

Definition qr_results : list ContentBlock :=
  [ToolResultBlock "toolu_1" "qr.png"].

Definition qr_transcript : list Message :=
  [user_message qr_query;
   assistant_message (resp_content wants_qr);
   tool_results_message qr_results].

End Samples.

(* ================================================================== *)
(** ** Further observations on traces and transcripts *)

(** The tool catalogs sent with the requests, oldest first. *)
Fixpoint request_tools (evs : list event) : list (list ClaudeTool) :=
  match evs with
  | [] => []
  | EvRequest _ tools _ :: rest => tools :: request_tools rest
  | _ :: rest => request_tools rest
  end.

(** The calls sent to the tool host, oldest first. *)
Fixpoint host_calls (evs : list event) : list (string * json) :=
  match evs with
  | [] => []
  | EvHostCall name arguments :: rest => (name, arguments) :: host_calls rest
  | _ :: rest => host_calls rest
  end.

Definition asks_for_tools (response : Response) : bool :=
  stop_reason_is (stop_reason response) "tool_use".

(** The roles of [k] turns: an assistant message and a user message
    each. *)
Fixpoint turn_roles (k : nat) : list string :=
  match k with
  | O => []
  | S k' => "assistant" :: "user" :: turn_roles k'
  end.

Definition printable (c : ascii) : bool :=
  ((32 <=? N_of_ascii c) && (N_of_ascii c <=? 126))%N.

Fixpoint all_printable (s : string) : bool :=
  match s with
  | EmptyString => true
  | String c rest => printable c && all_printable rest
  end.

(* ================================================================== *)
(** ** [__init__] *)

(** The attributes [__init__] sets: no session, no tools. *)
Definition init_agent : Agent := mkAgent None [].

(** The world of a process that has just built its agent. *)
Definition fresh_world : World := mkWorld init_agent [].

(* ================================================================== *)
(** ** [str.strip] and [str.lower] *)

Module PyStr.

(** [str.isspace] on the code points up to U+00FF: U+0009 to U+000D,
    U+001C to U+0020, U+0085 and U+00A0. *)
Definition is_space (c : ascii) : bool :=
  let n := N_of_ascii c in
  (((9 <=? n) && (n <=? 13)) || ((28 <=? n) && (n <=? 32))
   || (n =? 133) || (n =? 160))%N.

Fixpoint lstrip (s : string) : string :=
  match s with
  | EmptyString => EmptyString
  | String c rest => if is_space c then lstrip rest else s
  end.

Fixpoint rstrip (s : string) : string :=
  match s with
  | EmptyString => EmptyString
  | String c rest =>
      match rstrip rest with
      | EmptyString => if is_space c then EmptyString else str1 c
      | kept => String c kept
      end
  end.

(** [s.strip()] *)
Definition strip (s : string) : string := rstrip (lstrip s).

(** The lower-case mapping on the code points up to U+00FF: the
    letters A to Z, and U+00C0 to U+00DE without the sign U+00D7. *)
Definition lower_char (c : ascii) : ascii :=
  let n := N_of_ascii c in
  if (((65 <=? n) && (n <=? 90))
      || ((192 <=? n) && (n <=? 222) && negb (n =? 215)))%N
  then ascii_of_N (n + 32)
  else c.

(** [s.lower()] *)
Fixpoint lower (s : string) : string :=
  match s with
  | EmptyString => EmptyString
  | String c rest => String (lower_char c) (lower rest)
  end.

(** [not s] for a string. *)
Definition is_empty (s : string) : bool :=
  match s with
  | EmptyString => true
  | String _ _ => false
  end.

End PyStr.

(* ================================================================== *)
(** ** [interactive_mode] *)

(** What [input()] meets at the prompt: a line (without its newline) or
    an interrupt from the keyboard.  At the end of the list [input()]
    meets the end of the file. *)
Inductive StdinItem : Type :=
| Line (text : string)
| CtrlC.

(** What [interactive_mode] writes, one constructor per place of the
    source that writes it, with the value it interpolates: the banner
    printed before the loop, the prompt of [input("You: ")], the goodbye
    of a quit command, the goodbye of an interrupt, the agent's
    response and the rule printed after it, the error message. *)
Inductive Output : Type :=
| OutBanner
| OutPrompt
| OutGoodbye
| OutInterrupted
| OutAgent (response : string)
| OutSeparator
| OutError (message : string).

Record Console : Type := mkConsole {
  con_world : World;
  con_stdin : list StdinItem;
  con_stdout : list Output
}.

(** [user_input.lower() in ['quit', 'exit', 'q']] *)
Definition is_quit (user_input : string) : bool :=
  existsb (String.eqb (PyStr.lower user_input)) ["quit"; "exit"; "q"].

(** The exception of [input()] at the end of the file. *)
Definition EOFError : exn := mkExn "EOFError" "EOF when reading a line".

Definition print (c : Console) (out : list Output) : Console :=
  mkConsole (con_world c) (con_stdin c) (con_stdout c ++ out).

Section InteractiveMode.

Variable anthropic_client : Backend.

(** The loop [while True: try: ... except KeyboardInterrupt: ...
    except Exception as e: ...].  One unit of [fuel] per iteration;
    [None] when the fuel runs out before the loop is left. *)
Fixpoint interactive_loop (m : ClientModule) (fuel : nat) (c : Console)
  : option Console :=
  match fuel with
  | O => None
  | S fuel' =>
      let c := print c [OutPrompt] in
      match con_stdin c with
      | [] =>
          (* input() raises EOFError, an Exception *)
          interactive_loop m fuel' (print c [OutError (exn_str EOFError)])
      | CtrlC :: rest =>
          Some (mkConsole (con_world c) rest (con_stdout c ++ [OutInterrupted]))
      | Line text :: rest =>
          let user_input := PyStr.strip text in
          if is_quit user_input then
            Some (mkConsole (con_world c) rest (con_stdout c ++ [OutGoodbye]))
          else if PyStr.is_empty user_input then
            interactive_loop m fuel' (mkConsole (con_world c) rest (con_stdout c))
          else
            match process_query anthropic_client m user_input 10 (con_world c) with
            | (Ok response, w') =>
                interactive_loop m fuel'
                  (mkConsole w' rest
                             (con_stdout c ++ [OutAgent response; OutSeparator]))
            | (Raise e, w') =>
                interactive_loop m fuel'
                  (mkConsole w' rest (con_stdout c ++ [OutError (exn_str e)]))
            end
      end
  end.

Definition interactive_mode (m : ClientModule) (fuel : nat) (c : Console)
  : option Console :=
  interactive_loop m fuel (print c [OutBanner]).

(** [process_query] on each query in turn, with the default budget,
    each in the world the one before left. *)
Fixpoint answer_all (m : ClientModule) (queries : list string) (w : World)
  : list (result string) * World :=
  match queries with
  | [] => ([], w)
  | q :: rest =>
      let (r, w1) := process_query anthropic_client m q 10 w in
      let (rs, w2) := answer_all m rest w1 in
      (r :: rs, w2)
  end.

End InteractiveMode.

(** The item ends the loop: a quit command or an interrupt. *)
Definition ends_session (item : StdinItem) : bool :=
  match item with
  | Line text => is_quit (PyStr.strip text)
  | CtrlC => true
  end.

(** The queries among lines that do not end the loop: the stripped
    lines that are not empty. *)
Definition queries_of (lines : list string) : list string :=
  filter (fun q => negb (PyStr.is_empty q)) (map PyStr.strip lines).

(** What is written for an answer. *)
Definition printed (r : result string) : list Output :=
  match r with
  | Ok response => [OutAgent response; OutSeparator]
  | Raise e => [OutError (exn_str e)]
  end.

(** What is written while [lines] are served, given the answers to
    their queries. *)
Fixpoint session_output (lines : list string) (answers : list (result string))
  : list Output :=
  match lines with
  | [] => []
  | text :: rest =>
      if PyStr.is_empty (PyStr.strip text) then
        OutPrompt :: session_output rest answers
      else
        match answers with
        | a :: answers' =>
            (OutPrompt :: printed a ++ session_output rest answers')%list
        | [] => [OutPrompt]
        end
  end.

Definition farewell (item : StdinItem) : Output :=
  match item with
  | Line _ => OutGoodbye
  | CtrlC => OutInterrupted
  end.

(* ================================================================== *)
(** ** The entry points *)

(** [not os.environ.get("ANTHROPIC_API_KEY")]: the variable is unset or
    empty. *)
Definition env_unset (value : option string) : bool :=
  match value with
  | None => true
  | Some v => PyStr.is_empty v
  end.

(** [sys.argv[1] if len(sys.argv) > 1 else "content_studio_server.py"] *)
Definition server_path_of_argv (argv : list string) : string :=
  match argv with
  | _ :: path :: _ => path
  | _ => "content_studio_server.py"
  end.

Inductive MainOutcome : Type :=
| SysExit (status : Z)
| MainResult (r : result unit).

(** The lookup of a method on an instance of [ContentStudioAgent]. *)
Definition lookup_method (m : ClientModule) (name : string) : M unit :=
  if has_method m name then ret tt
  else raise (AttributeError "ContentStudioAgent" name).

Section HyphenMain.

(** What [connect_to_server] and [run] would be bound to, if the class
    of the module bound them. *)
Variable connect_to_server : string -> M unit.
Variable run_agent : M unit.

(** [main] of [Python-Application/content-studio-client.py], given the
    value of the environment variable and [sys.argv]: how it ends, and
    the trace of the agent it built, if it got that far. *)
Definition hyphen_main (api_key : option string) (argv : list string)
  : MainOutcome * list event :=
  if env_unset api_key then (SysExit 1, [])
  else
    let server_path := server_path_of_argv argv in
    let (r, w) :=
      (lookup_method HyphenClient "connect_to_server" ;;;
       connect_to_server server_path ;;;
       lookup_method HyphenClient "run" ;;;
       run_agent) fresh_world in
    (MainResult r, trace w).

End HyphenMain.

(** The functions [main] of [demo.py] hands over to. *)
Inductive DemoAction : Type :=
| DemoExit (status : Z)
| PrintUsage
| RunCustomDemo (server_path : string)
| RunDemo (server_path : string).

(** The mode [main] of [demo.py] settles on. *)
Definition demo_mode (argv : list string) : string :=
  match argv with
  | _ :: arg :: _ =>
      if existsb (String.eqb arg) ["auto"; "custom"; "help"; "-h"; "--help"]
      then arg
      else "auto"
  | _ => "auto"
  end.

(** [main] of [demo.py]: the function it calls, with the server path
    that [run_custom_demo] and [run_demo] read from [sys.argv] before
    they connect. *)
Definition demo_main (api_key : option string) (argv : list string)
  : DemoAction :=
  if env_unset api_key then DemoExit 1
  else
    let mode := demo_mode argv in
    if existsb (String.eqb mode) ["help"; "-h"; "--help"] then PrintUsage
    else if String.eqb mode "custom"
         then RunCustomDemo (server_path_of_argv argv)
         else RunDemo (server_path_of_argv argv).

(* ================================================================== *)
(** ** Sample sessions *)

Module SessionSamples.

(** A blank line, then a query with blanks around it. *)
Definition typed : list string :=
  ["   "; "  Generate a QR code for https://example.com "].

(** The same, followed by a quit command in capitals and a line that
    comes too late. *)
Definition typed_then_quit : list StdinItem :=
  (map Line typed ++ [Line "  QUIT "; Line "never read"])%list.

Definition at_the_prompt : Console :=
  mkConsole Samples.connected typed_then_quit [].

(** A response that asks for tools without naming any. *)
Definition wants_nothing : Response :=
  mkResponse (Some "tool_use") [TextBlock "Thinking."].

End SessionSamples.

(* ================================================================== *)
(** ** Worlds and traces *)

Lemma add_events_nil (w : World) : add_events w [] = w.
Proof. destruct w; unfold add_events; simpl; now rewrite app_nil_r. Qed.

Lemma add_event_events (w : World) (e : event) :
  add_event w e = add_events w [e].
Proof. reflexivity. Qed.

Lemma add_events_app (w : World) (evs1 evs2 : list event) :
  add_events (add_events w evs1) evs2 = add_events w (evs1 ++ evs2).
Proof. unfold add_events; simpl; now rewrite app_assoc. Qed.

Lemma requests_app (evs1 evs2 : list event) :
  requests (evs1 ++ evs2) = (requests evs1 ++ requests evs2)%list.
Proof.
  induction evs1 as [|e evs1 IH]; simpl; [reflexivity|].
  destruct e; simpl; now rewrite IH.
Qed.

Lemma responses_app (evs1 evs2 : list event) :
  responses (evs1 ++ evs2) = (responses evs1 ++ responses evs2)%list.
Proof.
  induction evs1 as [|e evs1 IH]; simpl; [reflexivity|].
  destruct e; simpl; now rewrite IH.
Qed.

Lemma call_tool_calls_app (evs1 evs2 : list event) :
  call_tool_calls (evs1 ++ evs2)
  = (call_tool_calls evs1 ++ call_tool_calls evs2)%list.
Proof.
  induction evs1 as [|e evs1 IH]; simpl; [reflexivity|].
  destruct e; simpl; now rewrite IH.
Qed.

Lemma requests_responses_length (evs : list event) :
  List.length (requests evs) = List.length (responses evs).
Proof.
  induction evs as [|e evs IH]; simpl; [reflexivity|].
  destruct e; simpl; now rewrite ?IH.
Qed.

(* ================================================================== *)
(** ** [format_tools_for_claude] *)

Lemma format_tools_loop_map (tools : list Tool) (acc : list ClaudeTool) :
  format_tools_loop tools acc = (acc ++ map to_claude_tool tools)%list.
Proof.
  revert acc; induction tools as [|tool rest IH]; intros acc; simpl.
  - now rewrite app_nil_r.
  - rewrite IH, <- app_assoc. reflexivity.
Qed.

Lemma format_tools_for_claude_run (w : World) :
  format_tools_for_claude w
  = (Ok (map to_claude_tool (available_tools (self w))), w).
Proof.
  unfold format_tools_for_claude, bind, get_self, ret.
  now rewrite format_tools_loop_map.
Qed.

(** C8: [format_tools_for_claude] is a pure projection of
    [self.available_tools]: it returns, in catalog order, the
    [{name, description, input_schema}] of every tool, it never raises,
    it leaves the agent and the trace as they were, and two calls in a
    row return the same list. *)
Theorem format_tools_for_claude_pure_projection (w : World) :
  format_tools_for_claude w
  = (Ok (map to_claude_tool (available_tools (self w))), w)
  /\ (forall tool, ct_name (to_claude_tool tool) = tool_name tool
                 /\ ct_description (to_claude_tool tool) = tool_description tool
                 /\ ct_input_schema (to_claude_tool tool) = tool_inputSchema tool)
  /\ (exists tools,
        (first <- format_tools_for_claude ;;
         second <- format_tools_for_claude ;;
         ret (first, second)) w = (Ok (tools, tools), w)).
Proof.
  split; [apply format_tools_for_claude_run|].
  split; [intros tool; repeat split|].
  eexists. unfold bind at 1. rewrite format_tools_for_claude_run.
  unfold bind. rewrite format_tools_for_claude_run. reflexivity.
Qed.

(* ================================================================== *)
(** ** [call_tool] *)

(** What [call_tool] does, case by case. *)
Lemma call_tool_cases (name : string) (input : json) (w : World) :
  call_tool name input w =
  match session (self w) with
  | None =>
      (Ok (error_payload (AttributeError "NoneType" "call_tool")),
       add_events w [EvCallTool name input])
  | Some host =>
      let w' := add_events w [EvCallTool name input; EvHostCall name input] in
      match host (trace w ++ [EvCallTool name input])%list name input with
      | HostRaises e => (Ok (error_payload e), w')
      | HostReturns r =>
          match cr_content r with
          | Some (TextItem text :: _) => (Ok text, w')
          | Some (OtherItem cls :: _) =>
              (Ok (error_payload (AttributeError cls "text")), w')
          | Some [] | None => (Ok (cr_str r), w')
          end
      end
  end.
Proof.
  assert (Hw : add_event (add_event w (EvCallTool name input))
                         (EvHostCall name input)
               = add_events w [EvCallTool name input; EvHostCall name input]).
  { rewrite !add_event_events. apply add_events_app. }
  cbv [call_tool call_tool_try session_call_tool try_except bind emit
       get_self raise ret item_text].
  change (self (add_event w (EvCallTool name input))) with (self w).
  change (trace (add_event w (EvCallTool name input)))
    with (trace w ++ [EvCallTool name input])%list.
  destruct (session (self w)) as [host|]; [|reflexivity].
  rewrite Hw.
  destruct (host _ name input) as [r|e]; [|reflexivity].
  destruct (cr_content r) as [[|[text|cls] items]|]; reflexivity.
Qed.

(** [call_tool] always returns a string; it adds its own invocation and
    at most one host call to the trace, and nothing else. *)
Lemma call_tool_returns (name : string) (input : json) (w : World) :
  exists s evs,
    call_tool name input w = (Ok s, add_events w (EvCallTool name input :: evs))
    /\ (evs = [] \/ evs = [EvHostCall name input]).
Proof.
  rewrite call_tool_cases.
  destruct (session (self w)) as [host|]; simpl.
  - destruct (host _ name input) as [r|e].
    + destruct (cr_content r) as [[|[text|cls] items]|];
        eexists; eexists; (split; [reflexivity|now right]).
    + eexists; eexists; (split; [reflexivity|now right]).
  - eexists; eexists; (split; [reflexivity|now left]).
Qed.


(* ================================================================== *)
(** ** The dispatching phase *)

Lemma call_tool_events (name : string) (input : json) (w : World) (s : string)
      (evs : list event) :
  call_tool name input w = (Ok s, add_events w evs) ->
  requests evs = [] /\ call_tool_calls evs = [(name, input)].
Proof.
  intros Hcall.
  destruct (call_tool_returns name input w) as (s0 & evs0 & Heq & Hevs).
  rewrite Heq in Hcall. injection Hcall as _ Htrace.
  apply app_inv_head in Htrace. subst evs.
  destruct Hevs as [-> | ->]; split; reflexivity.
Qed.

Lemma dispatched_events (w : World) (blocks results : list ContentBlock)
      (evs : list event) :
  dispatched w blocks results evs ->
  requests evs = [] /\ call_tool_calls evs = tool_use_calls blocks.
Proof.
  induction 1 as [w | w id name input s evs1 rest results evs2 Hcall _ IH
                    | w b rest results evs Hb _ IH].
  - split; reflexivity.
  - destruct (call_tool_events _ _ _ _ _ Hcall) as (Hr1 & Hc1).
    destruct IH as (Hr2 & Hc2).
    rewrite requests_app, call_tool_calls_app, Hr1, Hr2, Hc1, Hc2.
    split; reflexivity.
  - destruct IH as (Hr & Hc). split; [exact Hr|].
    destruct b; simpl in Hb; try discriminate; exact Hc.
Qed.

Lemma dispatched_result_ids (w : World) (blocks results : list ContentBlock)
      (evs : list event) :
  dispatched w blocks results evs ->
  map result_id results = map Some (tool_use_ids blocks).
Proof.
  induction 1 as [w | w id name input s evs1 rest results evs2 _ _ IH
                    | w b rest results evs Hb _ IH]; simpl.
  - reflexivity.
  - unfold tool_use_ids in *; simpl. now rewrite IH.
  - destruct b; simpl in Hb; try discriminate; exact IH.
Qed.

(** The accumulator loop of the source realises [dispatched]. *)
Lemma execute_tools_dispatched (blocks acc : list ContentBlock) (w : World) :
  exists results evs,
    execute_tools blocks acc w = (Ok (acc ++ results)%list, add_events w evs)
    /\ dispatched w blocks results evs.
Proof.
  revert acc w; induction blocks as [|b rest IH]; intros acc w.
  - exists [], []. simpl. rewrite app_nil_r, add_events_nil.
    split; [reflexivity|constructor].
  - destruct b as [text | id name input | rid rcontent | data]; simpl.
    + destruct (IH acc w) as (results & evs & Heq & Hd).
      exists results, evs. split; [exact Heq|]. now apply dispatched_skip.
    + destruct (call_tool_returns name input w) as (s & evs1 & Hcall & _).
      destruct (IH (acc ++ [ToolResultBlock id s])%list
                   (add_events w (EvCallTool name input :: evs1)))
        as (results & evs2 & Heq & Hd).
      exists (ToolResultBlock id s :: results),
             ((EvCallTool name input :: evs1) ++ evs2)%list.
      split.
      * unfold bind. rewrite Hcall, Heq, <- app_assoc, add_events_app.
        reflexivity.
      * eapply dispatched_call; eassumption.
    + destruct (IH acc w) as (results & evs & Heq & Hd).
      exists results, evs. split; [exact Heq|]. now apply dispatched_skip.
    + destruct (IH acc w) as (results & evs & Heq & Hd).
      exists results, evs. split; [exact Heq|]. now apply dispatched_skip.
Qed.

Lemma collect_text_concat (blocks : list ContentBlock) (acc : string) :
  collect_text blocks acc
  = acc ++ String.concat EmptyString (texts blocks).
Proof.
  assert (Hnil : forall s : string, s ++ EmptyString = s).
  { induction s as [|c s IHs]; simpl; [reflexivity|now rewrite IHs]. }
  assert (Hassoc : forall a b c : string, (a ++ b) ++ c = a ++ (b ++ c)).
  { induction a as [|x a IHa]; intros; simpl; [reflexivity|now rewrite IHa]. }
  assert (Hcons : forall t ts,
             String.concat EmptyString (t :: ts)
             = t ++ String.concat EmptyString ts).
  { intros t [|u ts]; simpl; [now rewrite Hnil|reflexivity]. }
  revert acc; induction blocks as [|b rest IH]; intros acc.
  - simpl. now rewrite Hnil.
  - destruct b; cbn [collect_text texts]; rewrite ?IH, ?Hcons, ?Hassoc;
      reflexivity.
Qed.

(* ================================================================== *)
(** ** The loop, turn by turn *)

Lemma stop_reason_is_true (r : option string) (s : string) :
  stop_reason_is r s = true <-> r = Some s.
Proof.
  destruct r as [x|]; simpl.
  - rewrite String.eqb_eq. split; [now intros ->|now intros [= ->]].
  - split; discriminate.
Qed.

Lemma stop_reason_is_false (r : option string) (s : string) :
  stop_reason_is r s = false <-> r <> Some s.
Proof.
  rewrite <- stop_reason_is_true. destruct (stop_reason_is r s); split;
    congruence.
Qed.

Lemma call_format_tools_hyphen (w : World) :
  call_format_tools_for_claude HyphenClient w
  = (Ok (map to_claude_tool (available_tools (self w))), w).
Proof. apply format_tools_for_claude_run. Qed.

Section Loop.

Variable anthropic_client : Backend.

(** One turn of the loop in the module that defines every method it
    calls. *)
Lemma agent_loop_turn (n : nat) (messages : list Message) (w : World) :
  let tools := map to_claude_tool (available_tools (self w)) in
  let response := anthropic_client (trace w) messages tools in
  let w1 := add_events w [EvRequest messages tools response] in
  agent_loop anthropic_client HyphenClient (S n) messages w =
  if stop_reason_is (stop_reason response) "tool_use" then
    match execute_tools (resp_content response) [] w1 with
    | (Ok tool_results, w2) =>
        agent_loop anthropic_client HyphenClient n
          (messages ++ [assistant_message (resp_content response);
                        tool_results_message tool_results])%list w2
    | (Raise e, w2) => (Raise e, w2)
    end
  else (Ok (terminal_outcome response, messages), w1).
Proof.
  intros tools response w1.
  cbn [agent_loop]. unfold bind at 1. rewrite call_format_tools_hyphen.
  fold tools. unfold bind at 1, messages_create. fold response.
  rewrite add_event_events. fold w1.
  destruct (stop_reason_is (stop_reason response) "tool_use").
  - unfold bind.
    destruct (execute_tools (resp_content response) [] w1) as [[results|e] w2];
      [|reflexivity].
    now rewrite <- app_assoc.
  - unfold terminal_outcome.
    destruct (stop_reason_is (stop_reason response) "end_turn");
      [|reflexivity].
    unfold ret. now rewrite collect_text_concat.
Qed.

(** The loop always returns, and the way it returns is a [run]. *)
Lemma agent_loop_run (n : nat) (messages : list Message) (w : World) :
  exists o messages' evs,
    agent_loop anthropic_client HyphenClient n messages w
    = (Ok (o, messages'), add_events w evs)
    /\ run anthropic_client HyphenClient n messages w o messages' evs.
Proof.
  revert messages w; induction n as [|n IH]; intros messages w.
  - exists Exhausted, messages, []. rewrite add_events_nil.
    split; [reflexivity|constructor].
  - rewrite agent_loop_turn.
    set (tools := map to_claude_tool (available_tools (self w))).
    set (response := anthropic_client (trace w) messages tools).
    set (w1 := add_events w [EvRequest messages tools response]).
    destruct (stop_reason_is (stop_reason response) "tool_use") eqn:Htool.
    + apply stop_reason_is_true in Htool.
      destruct (execute_tools_dispatched (resp_content response) [] w1)
        as (results & evs1 & Hexec & Hd).
      rewrite Hexec. simpl app.
      destruct (IH (messages ++ [assistant_message (resp_content response);
                                 tool_results_message results])%list
                   (add_events w1 evs1))
        as (o & messages' & evs2 & Heq & Hrun).
      exists o, messages', (EvRequest messages tools response :: evs1 ++ evs2).
      split.
      * rewrite Heq. unfold w1. now rewrite !add_events_app.
      * unfold w1 in Hrun. rewrite add_events_app in Hrun.
        apply run_tool_use with (results := results);
          try assumption; try reflexivity.
        apply call_format_tools_hyphen.
    + apply stop_reason_is_false in Htool.
      exists (terminal_outcome response), messages,
             [EvRequest messages tools response].
      split; [reflexivity|].
      apply run_terminal; try assumption; try reflexivity.
      apply call_format_tools_hyphen.
Qed.

End Loop.

(* ================================================================== *)
(** ** Properties of runs *)

Lemma requests_nil_responses (evs : list event) :
  requests evs = [] -> responses evs = [].
Proof.
  induction evs as [|e evs IH]; [reflexivity|].
  destruct e; simpl; try exact IH. discriminate.
Qed.

(** A request that occurs in [l1 ++ l2] occurs in [l2] when [l1] holds
    no request. *)
Lemma split_at_request (l1 l2 before after : list event)
      (messages : list Message) (tools : list ClaudeTool)
      (response : Response) :
  requests l1 = [] ->
  (l1 ++ l2 = before ++ EvRequest messages tools response :: after)%list ->
  exists before',
    before = (l1 ++ before')%list
    /\ l2 = (before' ++ EvRequest messages tools response :: after)%list.
Proof.
  revert before; induction l1 as [|e l1 IH]; intros before Hreq Heq.
  - exists before. split; [reflexivity|exact Heq].
  - destruct before as [|b before]; simpl in Heq.
    + injection Heq as He _. subst e. discriminate Hreq.
    + injection Heq as He Heq. subst b.
      assert (Hreq' : requests l1 = []).
      { destruct e; simpl in Hreq; try exact Hreq. discriminate. }
      destruct (IH before Hreq' Heq) as (before' & -> & ->).
      exists before'. split; reflexivity.
Qed.

Lemma extends_refl (t : list Message) : extends t t.
Proof. exists []. now rewrite app_nil_r. Qed.

Section RunFacts.

Variable anthropic_client : Backend.
Variable m : ClientModule.


(** A run makes at most [n] round trips, and [n] round trips that all
    end with [tool_use] exhaust the budget. *)
Lemma run_budget n messages w o messages' evs :
  run anthropic_client m n messages w o messages' evs ->
  (List.length (responses evs) <= n)%nat
  /\ (List.length (responses evs) = n ->
      Forall (fun r => stop_reason r = Some "tool_use") (responses evs) ->
      o = Exhausted).
Proof.
  induction 1 as [messages w
                 | n messages w tools response results evs1 o messages' evs2
                     _ _ _ Hd _ IH
                 | n messages w tools response _ _ Hstop].
  - split; [apply Nat.le_refl|reflexivity].
  - apply dispatched_events in Hd. destruct Hd as (Hreq & _).
    apply requests_nil_responses in Hreq.
    cbn [responses]. rewrite responses_app, Hreq. simpl.
    destruct IH as (Hle & Hall). split; [lia|].
    intros Hlen Hforall. inversion Hforall; subst.
    apply Hall; [lia|assumption].
  - simpl. split; [lia|].
    intros _ Hforall. inversion Hforall; subst. contradiction.
Qed.

(** The transcripts a run submits, followed by the one it returns,
    start with the transcript the run started from, and each of them
    extends the one before. *)
Lemma run_grows n messages w o messages' evs :
  run anthropic_client m n messages w o messages' evs ->
  exists later,
    (requests evs ++ [messages'])%list = messages :: later
    /\ grows_from messages later.
Proof.
  induction 1 as [messages w
                 | n messages w tools response results evs1 o messages' evs2
                     _ _ _ Hd _ IH
                 | n messages w tools response _ _ _].
  - exists []. split; [reflexivity|exact I].
  - apply dispatched_events in Hd. destruct Hd as (Hreq & _).
    destruct IH as (later & Heq & Hgrows).
    cbn [requests]. rewrite requests_app, Hreq. simpl app at 1.
    rewrite Heq. eexists. split; [reflexivity|].
    split; [|exact Hgrows]. eexists; reflexivity.
  - exists [messages]. split; [reflexivity|].
    split; [apply extends_refl|exact I].
Qed.

(** What happens around any round trip of a run: after a [tool_use]
    response come the events of one dispatching phase, and the next
    transcript (submitted or returned) is the submitted one followed
    by the assistant message and one message with all tool results;
    after any other response the run is over. *)
Lemma run_at_request n messages w o messages' evs :
  run anthropic_client m n messages w o messages' evs ->
  forall before msgs tools response after,
    evs = (before ++ EvRequest msgs tools response :: after)%list ->
    (stop_reason response = Some "tool_use"
     /\ exists results evs1 rest later,
         after = (evs1 ++ rest)%list
         /\ dispatched
              (add_events w (before ++ [EvRequest msgs tools response]))
              (resp_content response) results evs1
         /\ (requests rest ++ [messages'])%list
            = (msgs ++ [assistant_message (resp_content response);
                        tool_results_message results])%list :: later)
    \/ (stop_reason response <> Some "tool_use"
        /\ after = [] /\ messages' = msgs
        /\ o = terminal_outcome response).
Proof.
  induction 1 as [messages w
                 | n messages w tools0 response0 results evs1 o messages' evs2
                     _ _ Hstop Hd Hrun IH
                 | n messages w tools0 response0 _ _ Hstop];
    intros before msgs tools response after Hevs.
  - destruct before; discriminate Hevs.
  - destruct before as [|b before]; simpl in Hevs.
    + injection Hevs as -> -> -> <-.
      left. split; [exact Hstop|].
      destruct (run_grows _ _ _ _ _ _ Hrun) as (later & Hlater & _).
      exists results, evs1, evs2, later. repeat split; assumption.
    + injection Hevs as <- Hevs.
      pose proof (dispatched_events _ _ _ _ Hd) as (Hreq & _).
      destruct (split_at_request _ _ _ _ _ _ _ Hreq Hevs)
        as (before' & -> & Hevs2).
      destruct (IH _ _ _ _ _ Hevs2) as [Htool | Hterm]; [left|right; exact Hterm].
      destruct Htool as (Hs & results' & evs1' & rest & later & -> & Hd' & Hnext).
      split; [exact Hs|].
      exists results', evs1', rest, later. repeat split; try assumption.
      rewrite add_events_app in Hd'.
      replace ((EvRequest messages tools0 response0 :: evs1 ++ before')
                 ++ [EvRequest msgs tools response])%list
        with ((EvRequest messages tools0 response0 :: evs1)
                ++ before' ++ [EvRequest msgs tools response])%list;
        [exact Hd'|].
      simpl. now rewrite <- app_assoc.
  - destruct before as [|b before]; simpl in Hevs.
    + injection Hevs as -> -> -> <-.
      right. repeat split. exact Hstop.
    + injection Hevs as _ Hevs. destruct before; discriminate Hevs.
Qed.

End RunFacts.

(* ================================================================== *)
(** ** [run_query] and [process_query] in the module that defines
       [format_tools_for_claude] *)

Section Queries.

Variable anthropic_client : Backend.

Lemma run_query_returns (user_query : string) (max_iterations : Z) (w : World) :
  exists o messages evs,
    run_query anthropic_client HyphenClient user_query max_iterations w
    = (Ok (o, messages), add_events w evs)
    /\ run anthropic_client HyphenClient (Z.to_nat max_iterations)
           [user_message user_query] w o messages evs.
Proof. apply agent_loop_run. Qed.

Lemma run_query_run (user_query : string) (max_iterations : Z) (w : World)
      o messages evs :
  run_query anthropic_client HyphenClient user_query max_iterations w
  = (Ok (o, messages), add_events w evs) ->
  run anthropic_client HyphenClient (Z.to_nat max_iterations)
      [user_message user_query] w o messages evs.
Proof.
  intros Heq.
  destruct (run_query_returns user_query max_iterations w)
    as (o' & messages' & evs' & Heq' & Hrun).
  rewrite Heq' in Heq. injection Heq as -> -> Htrace.
  apply app_inv_head in Htrace. now subst evs'.
Qed.

Lemma process_query_of_run_query (m : ClientModule) (user_query : string)
      (max_iterations : Z) (w : World) o messages w' :
  run_query anthropic_client m user_query max_iterations w
  = (Ok (o, messages), w') ->
  process_query anthropic_client m user_query max_iterations w
  = (Ok (outcome_str o), w').
Proof. intros Heq. unfold process_query, bind. now rewrite Heq. Qed.

End Queries.

(** [call_tool] is its [try] block with every exception turned into an
    error payload. *)
Lemma call_tool_try_except (name : string) (input : json) (w : World) :
  call_tool name input w =
  match call_tool_try name input (add_events w [EvCallTool name input]) with
  | (Ok s, w') => (Ok s, w')
  | (Raise e, w') => (Ok (error_payload e), w')
  end.
Proof. reflexivity. Qed.

(* ================================================================== *)
(** ** The claims about [process_query] *)



(** C3: for a budget [max_iterations >= 0], [process_query] returns
    after at most [max_iterations] round trips to the backend; when
    there were [max_iterations] round trips and all of them ended with
    [tool_use], it returns, as an ordinary value, the string that
    reports the exhausted budget; with a budget of one and a [tool_use]
    response, the transcript at exit is the user message, the assistant
    message and one tool-results message. *)
Theorem process_query_within_budget
        (anthropic_client : Backend) (user_query : string)
        (max_iterations : Z) (w : World) :
  (0 <= max_iterations)%Z ->
  exists o messages evs,
    run_query anthropic_client HyphenClient user_query max_iterations w
    = (Ok (o, messages), add_events w evs)
    /\ process_query anthropic_client HyphenClient user_query max_iterations w
       = (Ok (outcome_str o), add_events w evs)
    /\ (Z.of_nat (List.length (requests evs)) <= max_iterations)%Z
    /\ (Z.of_nat (List.length (responses evs)) = max_iterations ->
        Forall (fun r => stop_reason r = Some "tool_use") (responses evs) ->
        o = Exhausted
        /\ outcome_str o
           = "Agent reached maximum iterations without completing task")
    /\ (max_iterations = 1%Z ->
        forall response,
          response = anthropic_client (trace w) [user_message user_query]
                       (map to_claude_tool (available_tools (self w))) ->
          stop_reason response = Some "tool_use" ->
          exists tool_results,
            o = Exhausted
            /\ messages = [user_message user_query;
                           assistant_message (resp_content response);
                           tool_results_message tool_results]
            /\ List.length (requests evs) = 1%nat).
Proof.
  intros Hbudget.
  destruct (run_query_returns anthropic_client user_query max_iterations w)
    as (o & messages & evs & Heq & Hrun).
  exists o, messages, evs.
  split; [exact Heq|].
  split; [now apply process_query_of_run_query with (messages := messages)|].
  destruct (run_budget _ _ _ _ _ _ _ _ Hrun) as (Hle & Hall).
  split; [rewrite requests_responses_length; lia|].
  split.
  - intros Hlen Hforall.
    assert (o = Exhausted) as -> by (apply Hall; [lia|exact Hforall]).
    split; reflexivity.
  - intros -> response Hresponse Hstop.
    change (Z.to_nat 1%Z) with 1%nat in Hrun.
    inversion Hrun as [| n0 messages0 w0 tools response0 results evs1 o0
                          messages0' evs2 Htools Hr Hs Hd Hrest
                       | n0 messages0 w0 tools response0 Htools Hr Hs]; subst.
    + rewrite call_format_tools_hyphen in Htools. injection Htools as <-.
      inversion Hrest; subst.
      exists results. repeat split.
      cbn [requests]. rewrite requests_app.
      apply dispatched_events in Hd. destruct Hd as (-> & _). reflexivity.
    + rewrite call_format_tools_hyphen in Htools. injection Htools as <-.
      contradiction.
Qed.

(** C4: when a response of the backend carries [end_turn], that round
    trip is the last event of the query (no further round trip, no
    [call_tool]), the transcript is the one that was submitted, and
    [process_query] returns the texts of the text blocks of that
    response, concatenated in block order. *)
Theorem end_turn_returns_completed
        (anthropic_client : Backend) (user_query : string)
        (max_iterations : Z) (w : World)
        (o : AgentOutcome) (messages : list Message) (evs : list event)
        (before : list event) (msgs : list Message) (tools : list ClaudeTool)
        (response : Response) (after : list event) :
  run_query anthropic_client HyphenClient user_query max_iterations w
  = (Ok (o, messages), add_events w evs) ->
  evs = (before ++ EvRequest msgs tools response :: after)%list ->
  stop_reason response = Some "end_turn" ->
  after = []
  /\ messages = msgs
  /\ o = Completed (String.concat EmptyString (texts (resp_content response)))
  /\ process_query anthropic_client HyphenClient user_query max_iterations w
     = (Ok (String.concat EmptyString (texts (resp_content response))),
        add_events w evs).
Proof.
  intros Heq Hevs Hstop.
  pose proof (run_query_run _ _ _ _ _ _ _ Heq) as Hrun.
  destruct (run_at_request _ _ _ _ _ _ _ _ Hrun _ _ _ _ _ Hevs)
    as [(Htool & _) | (_ & Hafter & Hmsgs & Ho)].
  - rewrite Hstop in Htool. discriminate.
  - unfold terminal_outcome in Ho. rewrite Hstop in Ho. simpl in Ho.
    repeat split; try assumption.
    rewrite (process_query_of_run_query _ _ _ _ _ _ _ _ Heq), Ho.
    reflexivity.
Qed.

(** C6: when a response of the backend carries a stop reason other than
    [tool_use] and [end_turn], that round trip is the last event of the
    query (no retry, no [call_tool]), the transcript is the one that was
    submitted, and [process_query] returns the string that reports the
    raw stop reason. *)
Theorem unexpected_stop_reason_returns_failed
        (anthropic_client : Backend) (user_query : string)
        (max_iterations : Z) (w : World)
        (o : AgentOutcome) (messages : list Message) (evs : list event)
        (before : list event) (msgs : list Message) (tools : list ClaudeTool)
        (response : Response) (after : list event) :
  run_query anthropic_client HyphenClient user_query max_iterations w
  = (Ok (o, messages), add_events w evs) ->
  evs = (before ++ EvRequest msgs tools response :: after)%list ->
  stop_reason response <> Some "tool_use" ->
  stop_reason response <> Some "end_turn" ->
  after = []
  /\ messages = msgs
  /\ o = Failed (stop_reason response)
  /\ process_query anthropic_client HyphenClient user_query max_iterations w
     = (Ok ("Agent stopped unexpectedly: "
              ++ format_stop_reason (stop_reason response)),
        add_events w evs).
Proof.
  intros Heq Hevs Htool Hend.
  pose proof (run_query_run _ _ _ _ _ _ _ Heq) as Hrun.
  destruct (run_at_request _ _ _ _ _ _ _ _ Hrun _ _ _ _ _ Hevs)
    as [(Htool' & _) | (_ & Hafter & Hmsgs & Ho)]; [contradiction|].
  unfold terminal_outcome in Ho.
  apply stop_reason_is_false in Hend. rewrite Hend in Ho.
  repeat split; try assumption.
  rewrite (process_query_of_run_query _ _ _ _ _ _ _ _ Heq), Ho.
  reflexivity.
Qed.

(** After a [tool_use] response of a run come the events of one
    dispatching phase and nothing else: what follows them is the end
    of the run, with the next transcript returned, or the request that
    submits the next transcript. *)
Lemma run_after_tool_use anthropic_client m n messages w o messages' evs :
  run anthropic_client m n messages w o messages' evs ->
  forall before msgs tools response after,
    evs = (before ++ EvRequest msgs tools response :: after)%list ->
    stop_reason response = Some "tool_use" ->
    exists results evs1 rest,
      after = (evs1 ++ rest)%list
      /\ dispatched (add_events w (before ++ [EvRequest msgs tools response]))
                    (resp_content response) results evs1
      /\ match rest with
         | [] =>
             messages'
             = (msgs ++ [assistant_message (resp_content response);
                         tool_results_message results])%list
         | EvRequest msgs' _ _ :: _ =>
             msgs'
             = (msgs ++ [assistant_message (resp_content response);
                         tool_results_message results])%list
         | _ => False
         end.
Proof.
  induction 1 as [messages w
                 | n messages w tools0 response0 results evs1 o messages' evs2
                     _ _ _ Hd Hrest IH
                 | n messages w tools0 response0 _ _ Hterm];
    intros before msgs tools response after Hevs Hstop.
  - destruct before; discriminate Hevs.
  - destruct before as [|b before]; simpl in Hevs.
    + injection Hevs as -> -> -> <-.
      exists results, evs1, evs2. split; [reflexivity|]. split; [exact Hd|].
      destruct Hrest; reflexivity.
    + injection Hevs as <- Hevs.
      pose proof (dispatched_events _ _ _ _ Hd) as (Hreq & _).
      destruct (split_at_request _ _ _ _ _ _ _ Hreq Hevs)
        as (before' & -> & Hevs2).
      destruct (IH _ _ _ _ _ Hevs2 Hstop)
        as (results' & evs1' & rest & -> & Hd' & Hnext).
      exists results', evs1', rest.
      split; [reflexivity|]. split; [|exact Hnext].
      rewrite add_events_app in Hd'.
      replace ((EvRequest messages tools0 response0 :: evs1 ++ before')
                 ++ [EvRequest msgs tools response])%list
        with ((EvRequest messages tools0 response0 :: evs1)
                ++ before' ++ [EvRequest msgs tools response])%list;
        [exact Hd'|].
      simpl. now rewrite <- app_assoc.
  - destruct before as [|b before]; simpl in Hevs.
    + injection Hevs as _ _ <- _. contradiction.
    + injection Hevs as _ Hevs. destruct before; discriminate Hevs.
Qed.

(** C5: after a response that carries [tool_use], the events up to the
    next round trip (or to the return) are exactly those of one
    dispatching phase: [call_tool] is invoked once per tool-use block
    of the response, with the block's name and input and in block
    order, and not once more; the tool results are collected in that
    same order, one per tool-use block and with its id; right after
    these events comes the request that submits the next transcript,
    or the return with it; and that transcript is the submitted one
    followed by exactly the assistant message and one user message
    that holds all these results. *)
Theorem tool_use_dispatches_in_order
        (anthropic_client : Backend) (user_query : string)
        (max_iterations : Z) (w : World)
        (o : AgentOutcome) (messages : list Message) (evs : list event)
        (before : list event) (msgs : list Message) (tools : list ClaudeTool)
        (response : Response) (after : list event) :
  run_query anthropic_client HyphenClient user_query max_iterations w
  = (Ok (o, messages), add_events w evs) ->
  evs = (before ++ EvRequest msgs tools response :: after)%list ->
  stop_reason response = Some "tool_use" ->
  exists tool_results evs1 rest later,
    after = (evs1 ++ rest)%list
    /\ dispatched (add_events w (before ++ [EvRequest msgs tools response]))
                  (resp_content response) tool_results evs1
    /\ call_tool_calls evs1 = tool_use_calls (resp_content response)
    /\ requests evs1 = []
    /\ map result_id tool_results
       = map Some (tool_use_ids (resp_content response))
    /\ match rest with
       | [] =>
           messages
           = (msgs ++ [assistant_message (resp_content response);
                       mkMessage "user" (Blocks tool_results)])%list
       | EvRequest msgs' _ _ :: _ =>
           msgs'
           = (msgs ++ [assistant_message (resp_content response);
                       mkMessage "user" (Blocks tool_results)])%list
       | _ => False
       end
    /\ (requests rest ++ [messages])%list
       = (msgs ++ [assistant_message (resp_content response);
                   mkMessage "user" (Blocks tool_results)])%list :: later.
Proof.
  intros Heq Hevs Hstop.
  pose proof (run_query_run _ _ _ _ _ _ _ Heq) as Hrun.
  destruct (run_after_tool_use _ _ _ _ _ _ _ _ Hrun _ _ _ _ _ Hevs Hstop)
    as (results & evs1 & rest & Hafter & Hd & Hnext).
  destruct (dispatched_events _ _ _ _ Hd) as (Hreq & Hcalls).
  assert (Hlater : exists later,
             (requests rest ++ [messages])%list
             = (msgs ++ [assistant_message (resp_content response);
                         tool_results_message results])%list :: later).
  { destruct rest as [|[msgs' tools' response'| |] rest];
      try contradiction.
    - exists []. simpl. now rewrite Hnext.
    - simpl. rewrite Hnext. eexists. reflexivity. }
  destruct Hlater as (later & Hlater).
  exists results, evs1, rest, later.
  repeat split; try assumption.
  eapply dispatched_result_ids; eassumption.
Qed.

(** C10: the class of [Python_Application/content_studio_client.py]
    defines no [format_tools_for_claude], and its [process_query], for
    any query and any budget of at least one iteration, raises an
    [AttributeError] with the trace as it was: before any request to
    the backend and before any tool invocation. *)
Theorem underscore_process_query_raises
        (anthropic_client : Backend) (user_query : string)
        (max_iterations : Z) (w : World) :
  (1 <= max_iterations)%Z ->
  has_method UnderscoreClient "format_tools_for_claude" = false
  /\ process_query anthropic_client UnderscoreClient user_query
                   max_iterations w
     = (Raise (AttributeError "ContentStudioAgent" "format_tools_for_claude"),
        w).
Proof.
  intros Hbudget. split; [reflexivity|].
  unfold process_query, run_query.
  destruct (Z.to_nat max_iterations) as [|n] eqn:Hn; [lia|].
  reflexivity.
Qed.

(* ================================================================== *)
(** ** The claims about [call_tool] *)

(** C2: for every tool name and input, [call_tool] returns a string and
    never raises; whenever its [try] block raises (no session, a
    failure of the host call, a first content element without text) the
    string is [json.dumps] of [{"status": "error", "message": ...}]
    with the exception's text in the message; the dispatching loop
    appends that string as the tool result of the block, like any other
    result; and [process_query] never raises either. *)
Theorem call_tool_absorbs_failures
        (name : string) (input : json) (w : World) :
  (exists s evs,
      call_tool name input w = (Ok s, add_events w evs)
      /\ forall e w1,
          call_tool_try name input (add_events w [EvCallTool name input])
          = (Raise e, w1) ->
          s = error_payload e)
  /\ (forall e,
        error_payload e
        = dumps (JObj [("status", JStr "error");
                       ("message",
                        JStr ("Tool execution failed: " ++ exn_str e))])
        /\ error_payload e
           = "{" ++ encode_string "status" ++ ": " ++ encode_string "error"
                 ++ ", " ++ encode_string "message" ++ ": "
                 ++ encode_string ("Tool execution failed: " ++ exn_str e)
                 ++ "}")
  /\ (forall host e,
        session (self w) = Some host ->
        host (trace w ++ [EvCallTool name input])%list name input
        = HostRaises e ->
        forall id tool_results,
        exists evs,
          execute_tools [ToolUseBlock id name input] tool_results w
          = (Ok (tool_results ++ [ToolResultBlock id (error_payload e)])%list,
             add_events w evs))
  /\ (forall anthropic_client user_query max_iterations,
      exists s evs,
        process_query anthropic_client HyphenClient user_query
                      max_iterations w
        = (Ok s, add_events w evs)).
Proof.
  split; [|split; [|split]].
  - destruct (call_tool_returns name input w) as (s & evs & Hcall & _).
    exists s, (EvCallTool name input :: evs). split; [exact Hcall|].
    intros e w1 Hraise. rewrite call_tool_try_except, Hraise in Hcall.
    now injection Hcall as <- _.
  - intros e. split; reflexivity.
  - intros host e Hsession Hhost id tool_results.
    exists [EvCallTool name input; EvHostCall name input].
    cbn [execute_tools]. unfold bind.
    rewrite call_tool_cases, Hsession, Hhost. reflexivity.
  - intros anthropic_client user_query max_iterations.
    destruct (run_query_returns anthropic_client user_query max_iterations w)
      as (o & messages & evs & Heq & _).
    exists (outcome_str o), evs.
    now apply process_query_of_run_query with (messages := messages).
Qed.

(** The code does not do what C7 says: on a successful host result
    whose content is an image followed by a text, [call_tool] does not
    return the text of the first element that has one. *)
Lemma call_tool_first_text_counterexample :
  ~ (forall name input w host r,
        session (self w) = Some host ->
        host (trace w ++ [EvCallTool name input])%list name input
        = HostReturns r ->
        fst (call_tool name input w) = Ok (first_text_or_str r)).
Proof.
  intros Hclaim.
  specialize (Hclaim "generate_thumbnail" JNull Samples.connected
                     Samples.studio_host _ eq_refl eq_refl).
  vm_compute in Hclaim. discriminate Hclaim.
Qed.

(** C7: what [call_tool] does with a successful host result, case by
    case.  It returns the text of the first content element when that
    element has one, and [str(result)] when the result has no content
    attribute or an empty content list, as C7 says.  But when the first
    element has no text (an image, an embedded resource), the attribute
    error of [result.content[0].text] is caught by the handler meant
    for failed calls: the successful call is reported as
    ["Tool execution failed: ..."], whether or not a later element has
    a text, where C7 asks for that text or for [str(result)].  The
    comment of the source ("Extract the text content from the result")
    and its [str(result)] fallback say what was meant; this case was
    missed. *)
Theorem call_tool_on_successful_result
        (name : string) (input : json) (w : World)
        (host : Session) (r : CallToolResult) :
  session (self w) = Some host ->
  host (trace w ++ [EvCallTool name input])%list name input = HostReturns r ->
  call_tool name input w
  = (Ok match cr_content r with
        | Some (TextItem text :: _) => text
        | Some (OtherItem cls :: _) =>
            dumps (JObj [("status", JStr "error");
                         ("message",
                          JStr ("Tool execution failed: '" ++ cls
                                  ++ "' object has no attribute 'text'"))])
        | Some [] | None => cr_str r
        end,
     add_events w [EvCallTool name input; EvHostCall name input])
  /\ (forall text rest,
        cr_content r = Some (TextItem text :: rest) ->
        fst (call_tool name input w) = Ok (first_text_or_str r))
  /\ (cr_content r = None \/ cr_content r = Some [] ->
      fst (call_tool name input w) = Ok (first_text_or_str r)).
Proof.
  intros Hsession Hhost.
  rewrite call_tool_cases, Hsession, Hhost. cbv zeta.
  unfold first_text_or_str.
  destruct (cr_content r) as [[|[text|cls] items]|]; simpl;
    (split; [reflexivity|]);
    (split; [intros text' rest' Hc; try discriminate Hc; reflexivity|]);
    intros [Hc|Hc]; try discriminate Hc; reflexivity.
Qed.

(* ================================================================== *)
(** ** The theorems at work on sample runs *)

Import Samples.

(** A QR code in two round trips. *)
Example qr_code_in_two_turns :
  process_query (scripted qr_script) HyphenClient qr_query 10 connected
  = (Ok "Here is your QR code.",
     add_events connected
       (qr_first_turn ++ [EvRequest qr_transcript qr_tools here_it_is])).
Proof. reflexivity. Qed.

(** A tool that fails at the host: the error payload is the tool result
    and the loop goes on. *)
Example failing_tool_goes_on :
  fst (run_query
         (scripted [mkResponse (Some "tool_use")
                               [ToolUseBlock "toolu_9" "resize" JNull];
                    here_it_is])
         HyphenClient "Resize it" 10 connected)
  = Ok (Completed "Here is your QR code.",
        [user_message "Resize it";
         assistant_message [ToolUseBlock "toolu_9" "resize" JNull];
         tool_results_message
           [ToolResultBlock "toolu_9"
              ("{" ++ encode_string "status" ++ ": " ++ encode_string "error"
                   ++ ", " ++ encode_string "message" ++ ": "
                   ++ encode_string "Tool execution failed: Unknown tool"
                   ++ "}")]]).
Proof. reflexivity. Qed.

(** A successful result whose first element is an image: the text that
    follows it is not returned, the caught [AttributeError] is. *)
Example thumbnail_text_is_not_returned :
  fst (call_tool "generate_thumbnail" JNull connected)
  = Ok (error_payload (AttributeError "ImageContent" "text")).
Proof. reflexivity. Qed.


Lemma process_query_within_budget_witness :
  (0 <= 1)%Z
  /\ fst (process_query (scripted [wants_qr]) HyphenClient qr_query 1 connected)
     = Ok "Agent reached maximum iterations without completing task".
Proof.
  split; [lia|].
  destruct (process_query_within_budget (scripted [wants_qr]) qr_query 1
                                        connected ltac:(lia))
    as (o & messages & evs & _ & Hpq & _ & _ & Hone).
  destruct (Hone eq_refl _ eq_refl eq_refl) as (tool_results & -> & _ & _).
  rewrite Hpq. reflexivity.
Defined.

Lemma end_turn_returns_completed_witness :
  process_query (scripted qr_script) HyphenClient qr_query 10 connected
  = (Ok "Here is your QR code.",
     add_events connected
       (qr_first_turn ++ [EvRequest qr_transcript qr_tools here_it_is])).
Proof.
  destruct (end_turn_returns_completed
              (scripted qr_script) qr_query 10 connected
              (Completed "Here is your QR code.") qr_transcript
              (qr_first_turn ++ [EvRequest qr_transcript qr_tools here_it_is])
              qr_first_turn qr_transcript qr_tools here_it_is [])
    as (_ & _ & _ & Hpq); [reflexivity|reflexivity|reflexivity|exact Hpq].
Defined.

Lemma unexpected_stop_reason_returns_failed_witness :
  process_query (scripted [cut_short]) HyphenClient qr_query 10 connected
  = (Ok "Agent stopped unexpectedly: max_tokens",
     add_events connected [EvRequest [user_message qr_query] qr_tools cut_short]).
Proof.
  destruct (unexpected_stop_reason_returns_failed
              (scripted [cut_short]) qr_query 10 connected
              (Failed (Some "max_tokens")) [user_message qr_query]
              [EvRequest [user_message qr_query] qr_tools cut_short]
              [] [user_message qr_query] qr_tools cut_short [])
    as (_ & _ & _ & Hpq);
    [reflexivity|reflexivity|discriminate|discriminate|exact Hpq].
Defined.

Lemma tool_use_dispatches_in_order_witness :
  exists tool_results evs1,
    call_tool_calls evs1 = [("generate_qr_code", qr_input)]
    /\ map result_id tool_results = [Some "toolu_1"].
Proof.
  destruct (tool_use_dispatches_in_order
              (scripted qr_script) qr_query 10 connected
              (Completed "Here is your QR code.") qr_transcript
              (qr_first_turn ++ [EvRequest qr_transcript qr_tools here_it_is])
              [] [user_message qr_query] qr_tools wants_qr
              [EvCallTool "generate_qr_code" qr_input;
               EvHostCall "generate_qr_code" qr_input;
               EvRequest qr_transcript qr_tools here_it_is])
    as (tool_results & evs1 & rest & later & _ & _ & Hcalls & _ & Hids & _ & _);
    [reflexivity|reflexivity|reflexivity|].
  exists tool_results, evs1. split; [exact Hcalls|exact Hids].
Defined.

Lemma underscore_process_query_raises_witness :
  (1 <= 10)%Z
  /\ process_query (scripted qr_script) UnderscoreClient qr_query 10 connected
     = (Raise (AttributeError "ContentStudioAgent" "format_tools_for_claude"),
        connected).
Proof.
  split; [lia|].
  apply (underscore_process_query_raises (scripted qr_script) qr_query 10
                                         connected).
  lia.
Defined.

Lemma call_tool_absorbs_failures_witness :
  fst (call_tool "resize" JNull connected)
  = Ok (error_payload (mkExn "McpError" "Unknown tool")).
Proof.
  destruct (call_tool_absorbs_failures "resize" JNull connected)
    as ((s & evs & Hcall & Hraise) & _).
  rewrite Hcall. simpl. f_equal.
  apply (Hraise _ (add_events connected [EvCallTool "resize" JNull;
                                          EvHostCall "resize" JNull])).
  reflexivity.
Defined.

Lemma call_tool_on_successful_result_witness :
  fst (call_tool "generate_thumbnail" JNull connected)
  = Ok ("{" ++ encode_string "status" ++ ": " ++ encode_string "error"
            ++ ", " ++ encode_string "message" ++ ": "
            ++ encode_string
                 "Tool execution failed: 'ImageContent' object has no attribute 'text'"
            ++ "}")
  /\ first_text_or_str
       (mkCallToolResult (Some [OtherItem "ImageContent"; TextItem "thumb.png"])
                         "CallToolResult")
     = "thumb.png".
Proof.
  destruct (call_tool_on_successful_result
              "generate_thumbnail" JNull connected studio_host
              (mkCallToolResult
                 (Some [OtherItem "ImageContent"; TextItem "thumb.png"])
                 "CallToolResult")
              eq_refl eq_refl)
    as (Hcall & _).
  rewrite Hcall. split; reflexivity.
Defined.

(* ================================================================== *)
(** ** Further properties of runs *)

Lemma request_tools_app (evs1 evs2 : list event) :
  request_tools (evs1 ++ evs2)
  = (request_tools evs1 ++ request_tools evs2)%list.
Proof.
  induction evs1 as [|e evs1 IH]; simpl; [reflexivity|].
  destruct e; simpl; now rewrite IH.
Qed.

Lemma host_calls_app (evs1 evs2 : list event) :
  host_calls (evs1 ++ evs2) = (host_calls evs1 ++ host_calls evs2)%list.
Proof.
  induction evs1 as [|e evs1 IH]; simpl; [reflexivity|].
  destruct e; simpl; now rewrite IH.
Qed.

Lemma requests_nil_tools (evs : list event) :
  requests evs = [] -> request_tools evs = [].
Proof.
  induction evs as [|e evs IH]; [reflexivity|].
  destruct e; simpl; try exact IH. discriminate.
Qed.



Section MoreRunFacts.

Variable anthropic_client : Backend.
Variable m : ClientModule.

(** A run goes on only after [tool_use]: either it exhausts its budget
    on responses that all ask for tools, or its last response is the
    only one that does not and decides the outcome. *)
Lemma run_outcome n messages w o messages' evs :
  run anthropic_client m n messages w o messages' evs ->
  (o = Exhausted
   /\ List.length (responses evs) = n
   /\ Forall (fun r => stop_reason r = Some "tool_use") (responses evs))
  \/ (exists init last,
         responses evs = (init ++ [last])%list
         /\ Forall (fun r => stop_reason r = Some "tool_use") init
         /\ stop_reason last <> Some "tool_use"
         /\ o = terminal_outcome last).
Proof.
  induction 1 as [messages w
                 | n messages w tools response results evs1 o messages' evs2
                     _ _ Hstop Hd _ IH
                 | n messages w tools response _ _ Hstop].
  - left. repeat split. constructor.
  - apply dispatched_events in Hd. destruct Hd as (Hreq & _).
    apply requests_nil_responses in Hreq.
    cbn [responses]. rewrite responses_app, Hreq. simpl app.
    destruct IH as [(-> & Hlen & Hall) | (init & last & Heq & Hall & Hlast & Ho)].
    + left. repeat split; [simpl; now rewrite Hlen|now constructor].
    + right. exists (response :: init), last.
      rewrite Heq. repeat split; try assumption. now constructor.
  - right. exists [], response. repeat split; [constructor|exact Hstop].
Qed.

(** The [call_tool] invocations of a run are the tool-use blocks of the
    responses that carry [tool_use], in order. *)
Lemma run_call_tool_calls n messages w o messages' evs :
  run anthropic_client m n messages w o messages' evs ->
  call_tool_calls evs
  = flat_map (fun r => tool_use_calls (resp_content r))
             (filter asks_for_tools (responses evs)).
Proof.
  induction 1 as [messages w
                 | n messages w tools response results evs1 o messages' evs2
                     _ _ Hstop Hd _ IH
                 | n messages w tools response _ _ Hstop].
  - reflexivity.
  - apply dispatched_events in Hd. destruct Hd as (Hreq & Hcalls).
    apply requests_nil_responses in Hreq.
    cbn [responses call_tool_calls].
    rewrite responses_app, call_tool_calls_app, Hreq, Hcalls, IH.
    assert (Hasks : asks_for_tools response = true)
      by now apply stop_reason_is_true.
    simpl app. cbn [filter]. rewrite Hasks. reflexivity.
  - assert (Hasks : asks_for_tools response = false)
      by now apply stop_reason_is_false.
    simpl. now rewrite Hasks.
Qed.

(** The transcript of a run gains one assistant message and one user
    message per response that carries [tool_use]. *)
Lemma run_roles n messages w o messages' evs :
  run anthropic_client m n messages w o messages' evs ->
  map role messages'
  = (map role messages
       ++ turn_roles (List.length (filter asks_for_tools (responses evs))))%list.
Proof.
  induction 1 as [messages w
                 | n messages w tools response results evs1 o messages' evs2
                     _ _ Hstop Hd _ IH
                 | n messages w tools response _ _ Hstop].
  - simpl. now rewrite app_nil_r.
  - apply dispatched_events in Hd. destruct Hd as (Hreq & _).
    apply requests_nil_responses in Hreq.
    cbn [responses]. rewrite responses_app, Hreq. simpl app.
    assert (Hasks : asks_for_tools response = true)
      by now apply stop_reason_is_true.
    cbn [filter]. rewrite Hasks.
    rewrite IH, map_app, <- app_assoc. reflexivity.
  - assert (Hasks : asks_for_tools response = false)
      by now apply stop_reason_is_false.
    simpl. rewrite Hasks. simpl. now rewrite app_nil_r.
Qed.

(** The events of a run are none, or start with the request that
    submits the transcript the run started from. *)
Lemma run_starts n messages w o messages' evs :
  run anthropic_client m n messages w o messages' evs ->
  match evs with
  | [] => messages' = messages
  | EvRequest msgs _ _ :: _ => msgs = messages
  | _ => False
  end.
Proof. destruct 1; reflexivity. Qed.

End MoreRunFacts.

Lemma turn_roles_length (k : nat) :
  List.length (turn_roles k) = (2 * k)%nat.
Proof. induction k as [|k IH]; simpl; [reflexivity|]. rewrite IH. lia. Qed.

(** X1: with a budget of zero or less the loop body never runs:
    [process_query] of either module returns the exhausted-budget
    message at once, with the agent and the trace as they were. *)
Theorem process_query_without_budget
        (anthropic_client : Backend) (m : ClientModule)
        (user_query : string) (max_iterations : Z) (w : World) :
  (max_iterations <= 0)%Z ->
  process_query anthropic_client m user_query max_iterations w
  = (Ok "Agent reached maximum iterations without completing task", w)
  /\ run_query anthropic_client m user_query max_iterations w
     = (Ok (Exhausted, [user_message user_query]), w).
Proof.
  intros Hbudget. unfold process_query, run_query, bind.
  replace (Z.to_nat max_iterations) with 0%nat by lia.
  split; reflexivity.
Qed.

(** X2: [process_query] goes on to another round trip only after a
    [tool_use] response.  Either it ends exhausted, and then it made
    exactly [max_iterations] round trips that all ended with
    [tool_use]; or every response but the last carried [tool_use], the
    last did not, and the last alone decides what is returned. *)
Theorem process_query_outcome
        (anthropic_client : Backend) (user_query : string)
        (max_iterations : Z) (w : World) :
  exists o messages evs,
    run_query anthropic_client HyphenClient user_query max_iterations w
    = (Ok (o, messages), add_events w evs)
    /\ ((o = Exhausted
         /\ List.length (responses evs) = Z.to_nat max_iterations
         /\ Forall (fun r => stop_reason r = Some "tool_use") (responses evs))
        \/ (exists init last,
               responses evs = (init ++ [last])%list
               /\ Forall (fun r => stop_reason r = Some "tool_use") init
               /\ stop_reason last <> Some "tool_use"
               /\ o = terminal_outcome last
               /\ o <> Exhausted)).
Proof.
  destruct (run_query_returns anthropic_client user_query max_iterations w)
    as (o & messages & evs & Heq & Hrun).
  exists o, messages, evs. split; [exact Heq|].
  destruct (run_outcome _ _ _ _ _ _ _ _ Hrun)
    as [Hleft | (init & last & Hresp & Hall & Hlast & Ho)]; [now left|].
  right. exists init, last. repeat split; try assumption.
  rewrite Ho. unfold terminal_outcome.
  destruct (stop_reason_is (stop_reason last) "end_turn"); discriminate.
Qed.

(** X3: every request of a query carries the same tool catalog, the
    projection of [self.available_tools] as it was when the query
    started, and the query leaves the agent as it was. *)
Theorem every_request_carries_the_catalog
        (anthropic_client : Backend) (user_query : string)
        (max_iterations : Z) (w : World) :
  exists o messages evs,
    run_query anthropic_client HyphenClient user_query max_iterations w
    = (Ok (o, messages), add_events w evs)
    /\ Forall (fun tools => tools = map to_claude_tool (available_tools (self w)))
              (request_tools evs)
    /\ self (add_events w evs) = self w.
Proof.
  destruct (run_query_returns anthropic_client user_query max_iterations w)
    as (o & messages & evs & Heq & Hrun).
  exists o, messages, evs. split; [exact Heq|]. split; [|reflexivity].
  clear Heq.
  induction Hrun as [messages w
                    | n messages w tools response results evs1 o messages' evs2
                        Htools _ _ Hd _ IH
                    | n messages w tools response Htools _ _].
  - constructor.
  - rewrite call_format_tools_hyphen in Htools. injection Htools as <-.
    apply dispatched_events in Hd. destruct Hd as (Hreq & _).
    apply requests_nil_tools in Hreq.
    cbn [request_tools]. rewrite request_tools_app, Hreq. simpl app.
    constructor; [reflexivity|exact IH].
  - rewrite call_format_tools_hyphen in Htools. injection Htools as <-.
    simpl. constructor; [reflexivity|constructor].
Qed.

(** X4: the tools that a query runs are exactly the tool-use blocks of
    the responses that carry [tool_use], response by response and in
    block order; tool-use blocks of a response with any other stop
    reason are never run. *)
Theorem only_requested_tools_run
        (anthropic_client : Backend) (user_query : string)
        (max_iterations : Z) (w : World) :
  exists o messages evs,
    run_query anthropic_client HyphenClient user_query max_iterations w
    = (Ok (o, messages), add_events w evs)
    /\ call_tool_calls evs
       = flat_map (fun r => tool_use_calls (resp_content r))
                  (filter asks_for_tools (responses evs)).
Proof.
  destruct (run_query_returns anthropic_client user_query max_iterations w)
    as (o & messages & evs & Heq & Hrun).
  exists o, messages, evs. split; [exact Heq|].
  eapply run_call_tool_calls; eassumption.
Qed.

(** X5: the transcript alternates roles: it starts with the user
    message and holds one assistant message and one user message for
    every response that carried [tool_use], so [2 * k + 1] messages
    after [k] such responses. *)
Theorem transcript_roles_alternate
        (anthropic_client : Backend) (user_query : string)
        (max_iterations : Z) (w : World) :
  exists o messages evs,
    run_query anthropic_client HyphenClient user_query max_iterations w
    = (Ok (o, messages), add_events w evs)
    /\ map role messages
       = "user" :: turn_roles
                     (List.length (filter asks_for_tools (responses evs)))
    /\ List.length messages
       = (2 * List.length (filter asks_for_tools (responses evs)) + 1)%nat.
Proof.
  destruct (run_query_returns anthropic_client user_query max_iterations w)
    as (o & messages & evs & Heq & Hrun).
  exists o, messages, evs. split; [exact Heq|].
  pose proof (run_roles _ _ _ _ _ _ _ _ Hrun) as Hroles.
  simpl in Hroles. split; [exact Hroles|].
  rewrite <- (length_map role), Hroles. simpl.
  rewrite turn_roles_length. lia.
Qed.

(* ================================================================== *)
(** ** Tools, with and without a session *)

Lemma call_tool_unconnected (name : string) (input : json) (w : World) :
  session (self w) = None ->
  call_tool name input w
  = (Ok (error_payload (AttributeError "NoneType" "call_tool")),
     add_events w [EvCallTool name input]).
Proof. intros Hs. now rewrite call_tool_cases, Hs. Qed.

Lemma call_tool_connected (name : string) (input : json) (w : World)
      (host : Session) :
  session (self w) = Some host ->
  exists s,
    call_tool name input w
    = (Ok s, add_events w [EvCallTool name input; EvHostCall name input]).
Proof.
  intros Hs. rewrite call_tool_cases, Hs. cbv zeta.
  destruct (host _ name input) as [r|e]; [|eexists; reflexivity].
  destruct (cr_content r) as [[|[text|cls] items]|]; eexists; reflexivity.
Qed.

Lemma dispatched_unconnected (w : World) (blocks results : list ContentBlock)
      (evs : list event) :
  dispatched w blocks results evs ->
  session (self w) = None ->
  results
  = map (fun id =>
           ToolResultBlock id
             (error_payload (AttributeError "NoneType" "call_tool")))
        (tool_use_ids blocks)
  /\ host_calls evs = [].
Proof.
  induction 1 as [w | w id name input s evs1 rest results evs2 Hcall _ IH
                    | w b rest results evs Hb _ IH]; intros Hs.
  - split; reflexivity.
  - rewrite (call_tool_unconnected _ _ _ Hs) in Hcall.
    injection Hcall as <- Htrace. apply app_inv_head in Htrace. subst evs1.
    destruct (IH Hs) as (-> & Hhost).
    split; [reflexivity|]. simpl. exact Hhost.
  - destruct (IH Hs) as (-> & Hhost). split; [|exact Hhost].
    destruct b; simpl in Hb; try discriminate; reflexivity.
Qed.

Lemma dispatched_connected (w : World) (blocks results : list ContentBlock)
      (evs : list event) (host : Session) :
  dispatched w blocks results evs ->
  session (self w) = Some host ->
  host_calls evs = call_tool_calls evs.
Proof.
  induction 1 as [w | w id name input s evs1 rest results evs2 Hcall _ IH
                    | w b rest results evs Hb _ IH]; intros Hs.
  - reflexivity.
  - destruct (call_tool_connected name input _ _ Hs) as (s' & Heq).
    rewrite Heq in Hcall.
    injection Hcall as _ Htrace. apply app_inv_head in Htrace. subst evs1.
    rewrite host_calls_app, call_tool_calls_app, (IH Hs). reflexivity.
  - exact (IH Hs).
Qed.

Lemma dispatched_nothing (w : World) (blocks results : list ContentBlock)
      (evs : list event) :
  dispatched w blocks results evs ->
  tool_uses blocks = [] ->
  results = [] /\ evs = [].
Proof.
  induction 1 as [w | w id name input s evs1 rest results evs2 _ _ _
                    | w b rest results evs Hb _ IH]; intros Hnone.
  - split; reflexivity.
  - discriminate Hnone.
  - apply IH. destruct b; simpl in Hb; try discriminate; exact Hnone.
Qed.

Lemma run_host_calls_unconnected anthropic_client m n messages w o messages'
      evs :
  run anthropic_client m n messages w o messages' evs ->
  session (self w) = None ->
  host_calls evs = [].
Proof.
  induction 1 as [messages w
                 | n messages w tools response results evs1 o messages' evs2
                     _ _ _ Hd _ IH
                 | n messages w tools response _ _ _]; intros Hs.
  - reflexivity.
  - cbn [host_calls]. rewrite host_calls_app.
    destruct (dispatched_unconnected _ _ _ _ Hd Hs) as (_ & ->).
    now apply IH.
  - reflexivity.
Qed.

Lemma run_host_calls_connected anthropic_client m n messages w o messages'
      evs (host : Session) :
  run anthropic_client m n messages w o messages' evs ->
  session (self w) = Some host ->
  host_calls evs = call_tool_calls evs.
Proof.
  induction 1 as [messages w
                 | n messages w tools response results evs1 o messages' evs2
                     _ _ _ Hd _ IH
                 | n messages w tools response _ _ _]; intros Hs.
  - reflexivity.
  - cbn [host_calls call_tool_calls].
    rewrite host_calls_app, call_tool_calls_app.
    rewrite (dispatched_connected _ _ _ _ _ Hd Hs). now rewrite IH.
  - reflexivity.
Qed.

(** X6: an agent without a session (as [__init__] leaves it) never
    sends a call to a tool host; the result of every tool the model
    asks for is the error payload that reports the missing session, so
    the message that answers a [tool_use] response is fully determined
    by the ids of its tool-use blocks. *)
Theorem unconnected_agent_answers_with_errors
        (anthropic_client : Backend) (user_query : string)
        (max_iterations : Z) (w : World) :
  session (self w) = None ->
  session init_agent = None
  /\ exists o messages evs,
      run_query anthropic_client HyphenClient user_query max_iterations w
      = (Ok (o, messages), add_events w evs)
      /\ host_calls evs = []
      /\ forall before msgs tools response after,
          evs = (before ++ EvRequest msgs tools response :: after)%list ->
          stop_reason response = Some "tool_use" ->
          exists later,
            (requests after ++ [messages])%list
            = (msgs ++
               [assistant_message (resp_content response);
                tool_results_message
                  (map (fun id =>
                          ToolResultBlock id
                            (error_payload
                               (AttributeError "NoneType" "call_tool")))
                       (tool_use_ids (resp_content response)))])%list
              :: later.
Proof.
  intros Hs. split; [reflexivity|].
  destruct (run_query_returns anthropic_client user_query max_iterations w)
    as (o & messages & evs & Heq & Hrun).
  exists o, messages, evs. split; [exact Heq|].
  split; [eapply run_host_calls_unconnected; eassumption|].
  intros before msgs tools response after Hevs Hstop.
  destruct (run_at_request _ _ _ _ _ _ _ _ Hrun _ _ _ _ _ Hevs)
    as [(_ & results & evs1 & rest & later & -> & Hd & Hnext) | (Hno & _)];
    [|contradiction].
  destruct (dispatched_unconnected _ _ _ _ Hd Hs) as (-> & _).
  apply dispatched_events in Hd. destruct Hd as (Hreq & _).
  exists later. rewrite requests_app, Hreq. exact Hnext.
Qed.

(** X7: with a session, every [call_tool] invocation of a query sends
    exactly one call to the tool host, with the same name and the same
    arguments, also after earlier calls failed; together with X4 the
    host calls are exactly the tool uses the model asked for. *)
Theorem connected_agent_calls_host_once_per_tool
        (anthropic_client : Backend) (user_query : string)
        (max_iterations : Z) (w : World) (host : Session) :
  session (self w) = Some host ->
  exists o messages evs,
    run_query anthropic_client HyphenClient user_query max_iterations w
    = (Ok (o, messages), add_events w evs)
    /\ host_calls evs = call_tool_calls evs
    /\ host_calls evs
       = flat_map (fun r => tool_use_calls (resp_content r))
                  (filter asks_for_tools (responses evs)).
Proof.
  intros Hs.
  destruct (run_query_returns anthropic_client user_query max_iterations w)
    as (o & messages & evs & Heq & Hrun).
  exists o, messages, evs. split; [exact Heq|].
  rewrite (run_host_calls_connected _ _ _ _ _ _ _ _ _ Hrun Hs).
  split; [reflexivity|]. eapply run_call_tool_calls; eassumption.
Qed.

(** X8: a [tool_use] response without any tool-use block runs no tool:
    the assistant message and an empty tool-results message are
    appended, and the next event, if any, is the request that submits
    that transcript. *)
Theorem tool_use_without_blocks_appends_empty_results
        (anthropic_client : Backend) (user_query : string)
        (max_iterations : Z) (w : World)
        (o : AgentOutcome) (messages : list Message) (evs : list event)
        (before : list event) (msgs : list Message) (tools : list ClaudeTool)
        (response : Response) (after : list event) :
  run_query anthropic_client HyphenClient user_query max_iterations w
  = (Ok (o, messages), add_events w evs) ->
  evs = (before ++ EvRequest msgs tools response :: after)%list ->
  stop_reason response = Some "tool_use" ->
  tool_uses (resp_content response) = [] ->
  let next := (msgs ++ [assistant_message (resp_content response);
                        tool_results_message []])%list in
  match after with
  | [] => messages = next /\ o = Exhausted
  | EvRequest msgs' _ _ :: _ => msgs' = next
  | _ => False
  end.
Proof.
  intros Heq Hevs Hstop Hnone next.
  pose proof (run_query_run _ _ _ _ _ _ _ Heq) as Hrun.
  clear Heq. revert before Hevs.
  induction Hrun as [messages0 w
                    | n messages0 w tools0 response0 results evs1 o messages'
                        evs2 _ _ _ Hd Hrest IH
                    | n messages0 w tools0 response0 _ _ Hterm];
    intros before Hevs.
  - destruct before; discriminate Hevs.
  - destruct before as [|b before]; simpl in Hevs.
    + injection Hevs as -> -> -> <-.
      destruct (dispatched_nothing _ _ _ _ Hd Hnone) as (-> & ->).
      simpl app. pose proof (run_starts _ _ _ _ _ _ _ _ Hrest) as Hstart.
      destruct evs2 as [|[msgs' tools' response'| |] evs2];
        try exact Hstart.
      split; [exact Hstart|]. inversion Hrest; reflexivity.
    + injection Hevs as _ Hevs.
      pose proof (dispatched_events _ _ _ _ Hd) as (Hreq & _).
      destruct (split_at_request _ _ _ _ _ _ _ Hreq Hevs)
        as (before' & _ & Hevs2).
      exact (IH before' Hevs2).
  - destruct before as [|b before]; simpl in Hevs.
    + injection Hevs as _ _ <- _. contradiction.
    + injection Hevs as _ Hevs. destruct before; discriminate Hevs.
Qed.

(* ================================================================== *)
(** ** The error payload *)

Lemma all_printable_app (a b : string) :
  all_printable (a ++ b) = all_printable a && all_printable b.
Proof.
  induction a as [|c a IH]; simpl; [reflexivity|].
  now rewrite IH, andb_assoc.
Qed.

Lemma escape_char_printable (c : ascii) :
  all_printable (escape_char c) = true.
Proof. destruct c as [[] [] [] [] [] [] [] []]; reflexivity. Qed.

Lemma escape_printable (s : string) : all_printable (escape s) = true.
Proof.
  induction s as [|c s IH]; simpl; [reflexivity|].
  now rewrite all_printable_app, escape_char_printable, IH.
Qed.

(** X9: whatever the text of the exception (quotes, backslashes, line
    breaks, characters outside ASCII), the error payload that
    [call_tool] returns is made of printable ASCII characters only,
    from the space to the tilde: one line, nothing to escape again. *)
Theorem error_payload_is_printable_ascii (e : exn) :
  all_printable (error_payload e) = true.
Proof.
  unfold error_payload. cbn [dumps map String.concat fst snd].
  unfold encode_string.
  repeat (rewrite ?all_printable_app; cbn [all_printable append]);
    rewrite ?escape_printable; reflexivity.
Qed.

(* ================================================================== *)
(** ** [interactive_mode] *)

Section Sessions.

Variable anthropic_client : Backend.

Lemma queries_of_cons (text : string) (lines : list string) :
  queries_of (text :: lines)
  = if PyStr.is_empty (PyStr.strip text) then queries_of lines
    else PyStr.strip text :: queries_of lines.
Proof.
  unfold queries_of. simpl.
  now destruct (PyStr.is_empty (PyStr.strip text)).
Qed.

(** The loop on lines that do not end it, followed by an item that
    does. *)
Lemma interactive_loop_serves (m : ClientModule) (pre : list string) :
  forall (fuel : nat) (c : Console) (item : StdinItem)
         (rest : list StdinItem),
    con_stdin c = (map Line pre ++ item :: rest)%list ->
    Forall (fun text => is_quit (PyStr.strip text) = false) pre ->
    ends_session item = true ->
    (List.length pre < fuel)%nat ->
    interactive_loop anthropic_client m fuel c
    = Some (mkConsole
              (snd (answer_all anthropic_client m (queries_of pre)
                               (con_world c)))
              rest
              (con_stdout c
                 ++ session_output pre
                      (fst (answer_all anthropic_client m (queries_of pre)
                                       (con_world c)))
                 ++ [OutPrompt; farewell item])).
Proof.
  induction pre as [|text pre IH];
    intros fuel [w stdin out] item rest Hstdin Hpre Hends Hfuel;
    simpl in Hstdin; subst stdin;
    (destruct fuel as [|fuel]; [simpl in Hfuel; lia|]).
  - cbn [interactive_loop print con_stdin con_world con_stdout map app].
    destruct item as [text|]; simpl in Hends.
    + rewrite Hends. simpl. now rewrite <- app_assoc.
    + simpl. now rewrite <- app_assoc.
  - inversion Hpre as [|text' pre' Hquit Hpre']; subst.
    cbn [interactive_loop print con_stdin con_world con_stdout map app].
    rewrite Hquit, queries_of_cons. cbn [session_output].
    simpl in Hfuel.
    destruct (PyStr.is_empty (PyStr.strip text)) eqn:Hblank.
    + erewrite IH; [|reflexivity|exact Hpre'|exact Hends|lia].
      cbn [con_world con_stdout]. now rewrite <- app_assoc.
    + cbn [answer_all].
      destruct (process_query anthropic_client m (PyStr.strip text) 10 w)
        as [[response|e] w1];
        (erewrite IH; [|reflexivity|exact Hpre'|exact Hends|lia]);
        cbn [con_world con_stdout];
        destruct (answer_all anthropic_client m (queries_of pre) w1)
          as [rs w2];
        cbn [fst snd printed]; rewrite <- !app_assoc; reflexivity.
Qed.

(** The loop never leaves an input that holds no quit command and no
    interrupt: at the end of the input every iteration catches the
    [EOFError] of [input()] and starts over. *)
Lemma interactive_loop_goes_on (m : ClientModule) (fuel : nat) :
  forall c : Console,
    Forall (fun item => ends_session item = false) (con_stdin c) ->
    interactive_loop anthropic_client m fuel c = None.
Proof.
  induction fuel as [|fuel IH]; intros [w stdin out] Hstdin; [reflexivity|].
  cbn [interactive_loop print con_stdin con_world con_stdout].
  simpl in Hstdin.
  destruct stdin as [|[text|] stdin].
  - apply IH. constructor.
  - inversion Hstdin as [|item items Hitem Hitems]; subst.
    simpl in Hitem. rewrite Hitem.
    destruct (PyStr.is_empty (PyStr.strip text)); [now apply IH|].
    destruct (process_query anthropic_client m (PyStr.strip text) 10 w)
      as [[response|e] w1]; now apply IH.
  - inversion Hstdin as [|item items Hitem Hitems]; subst. discriminate Hitem.
Qed.

Lemma underscore_query_raises (user_query : string) (w : World) :
  process_query anthropic_client UnderscoreClient user_query 10 w
  = (Raise (AttributeError "ContentStudioAgent" "format_tools_for_claude"), w).
Proof. reflexivity. Qed.

Lemma answer_all_underscore (queries : list string) (w : World) :
  answer_all anthropic_client UnderscoreClient queries w
  = (map (fun _ =>
            Raise (AttributeError "ContentStudioAgent"
                                  "format_tools_for_claude"))
         queries, w).
Proof.
  induction queries as [|q queries IH]; [reflexivity|].
  cbn [answer_all]. rewrite underscore_query_raises, IH. reflexivity.
Qed.


End Sessions.

Lemma session_output_errors (e : exn) (lines : list string) :
  session_output lines (map (fun _ => Raise e) (queries_of lines))
  = flat_map (fun text =>
                if PyStr.is_empty (PyStr.strip text) then [OutPrompt]
                else [OutPrompt; OutError (exn_str e)])
             lines.
Proof.
  induction lines as [|text lines IH]; [reflexivity|].
  rewrite queries_of_cons. cbn [session_output flat_map].
  destruct (PyStr.is_empty (PyStr.strip text)); simpl; now rewrite IH.
Qed.

(** X10: a session that types lines and then a quit command (or an
    interrupt) is the sequential composition of [process_query], with
    the default budget of ten, over the stripped lines that are not
    empty, in order: with more fuel than lines, [interactive_mode]
    returns; it has written the banner, a prompt per line with the
    answer to each query, and the goodbye; blank lines cost a prompt
    only; and the input after the quit command is left unread. *)
Theorem interactive_mode_serves_until_quit
        (anthropic_client : Backend) (m : ClientModule)
        (pre : list string) (fuel : nat) (c : Console)
        (item : StdinItem) (rest : list StdinItem) :
  con_stdin c = (map Line pre ++ item :: rest)%list ->
  Forall (fun text => is_quit (PyStr.strip text) = false) pre ->
  ends_session item = true ->
  (List.length pre < fuel)%nat ->
  let answers :=
    answer_all anthropic_client m (queries_of pre) (con_world c) in
  interactive_mode anthropic_client m fuel c
  = Some (mkConsole (snd answers) rest
                    (con_stdout c
                       ++ OutBanner :: session_output pre (fst answers)
                       ++ [OutPrompt; farewell item])).
Proof.
  intros Hstdin Hpre Hends Hfuel answers. unfold interactive_mode.
  erewrite interactive_loop_serves;
    [|exact Hstdin|exact Hpre|exact Hends|exact Hfuel].
  cbn [print con_world con_stdout]. fold answers.
  now rewrite <- app_assoc.
Qed.

(** X11: in the module without [format_tools_for_claude], interactive
    mode answers every query with the message of the [AttributeError]
    and goes on to the next line; it never sends a request to the
    backend and never runs a tool: the world is as it was when the
    session ends. *)
Theorem underscore_interactive_mode_only_prints_errors
        (anthropic_client : Backend)
        (pre : list string) (fuel : nat) (c : Console)
        (item : StdinItem) (rest : list StdinItem) :
  con_stdin c = (map Line pre ++ item :: rest)%list ->
  Forall (fun text => is_quit (PyStr.strip text) = false) pre ->
  ends_session item = true ->
  (List.length pre < fuel)%nat ->
  interactive_mode anthropic_client UnderscoreClient fuel c
  = Some (mkConsole
            (con_world c) rest
            (con_stdout c
               ++ OutBanner
               :: flat_map
                    (fun text =>
                       if PyStr.is_empty (PyStr.strip text) then [OutPrompt]
                       else [OutPrompt;
                             OutError "'ContentStudioAgent' object has no attribute 'format_tools_for_claude'"])
                    pre
               ++ [OutPrompt; farewell item])).
Proof.
  intros Hstdin Hpre Hends Hfuel. unfold interactive_mode.
  erewrite interactive_loop_serves;
    [|exact Hstdin|exact Hpre|exact Hends|exact Hfuel].
  cbn [print con_world con_stdout].
  rewrite answer_all_underscore. cbn [fst snd].
  rewrite session_output_errors. now rewrite <- app_assoc.
Qed.


(** X13: on an input that ends without a quit command and without an
    interrupt, [interactive_mode] never returns, whatever the fuel:
    [input()] raises [EOFError] at the end of the input, the handler
    for [Exception] prints it, and the loop starts over. *)
Theorem interactive_mode_never_returns_at_end_of_input
        (anthropic_client : Backend) (m : ClientModule)
        (fuel : nat) (c : Console) :
  Forall (fun item => ends_session item = false) (con_stdin c) ->
  interactive_mode anthropic_client m fuel c = None.
Proof.
  intros Hstdin. unfold interactive_mode.
  apply interactive_loop_goes_on. exact Hstdin.
Qed.

(* ================================================================== *)
(** ** The entry points *)

(** X14: [main] of [Python-Application/content-studio-client.py] never
    starts the agent: without a value of the environment variable it
    exits with status 1; with one it raises the [AttributeError] of
    the missing [connect_to_server], whatever the arguments, before
    any session, request or tool call. *)
Theorem hyphen_main_never_starts_the_agent
        (connect_to_server : string -> M unit) (run_agent : M unit)
        (api_key : option string) (argv : list string) :
  has_method HyphenClient "connect_to_server" = false
  /\ hyphen_main connect_to_server run_agent api_key argv
     = if env_unset api_key
       then (SysExit 1, [])
       else (MainResult
               (Raise (AttributeError "ContentStudioAgent"
                                      "connect_to_server")),
             []).
Proof.
  split; [reflexivity|].
  unfold hyphen_main. destruct (env_unset api_key); reflexivity.
Qed.

(** X15: in [demo.py], the server path is always [sys.argv[1]]: when
    the first argument is the mode word [auto] or [custom], the demo
    connects to a server script of that very name, and an argument
    after the mode word is never read; any first argument that is not
    a mode word runs the automated demo with that argument as the
    server path. *)
Theorem demo_server_path_is_first_argument
        (api_key : option string) (prog arg : string) (rest : list string) :
  env_unset api_key = false ->
  (arg = "custom" ->
   demo_main api_key (prog :: arg :: rest) = RunCustomDemo "custom")
  /\ (arg = "auto" ->
      demo_main api_key (prog :: arg :: rest) = RunDemo "auto")
  /\ (existsb (String.eqb arg) ["auto"; "custom"; "help"; "-h"; "--help"]
      = false ->
      demo_main api_key (prog :: arg :: rest) = RunDemo arg)
  /\ (forall path,
        demo_main api_key (prog :: arg :: rest) = RunDemo path
        \/ demo_main api_key (prog :: arg :: rest) = RunCustomDemo path ->
        path = arg)
  /\ demo_main api_key [prog] = RunDemo "content_studio_server.py".
Proof.
  intros Hkey. unfold demo_main. rewrite Hkey.
  split; [intros ->; reflexivity|].
  split; [intros ->; reflexivity|].
  split.
  - intros Hword. unfold demo_mode. rewrite Hword. reflexivity.
  - split; [|reflexivity].
    intros path. cbn [server_path_of_argv].
    destruct (existsb (String.eqb (demo_mode (prog :: arg :: rest)))
                      ["help"; "-h"; "--help"]);
      [intros [H|H]; discriminate H|].
    destruct (String.eqb (demo_mode (prog :: arg :: rest)) "custom");
      intros [H|H]; try discriminate H; now injection H.
Qed.

(* ================================================================== *)
(** ** The further properties at work on sample runs *)

Import SessionSamples.

(** A session on a connected agent: the blank line costs a prompt, the
    query is stripped and answered, the quit command in capitals ends
    the session and the last line stays unread. *)
Example session_with_one_query :
  option_map (fun c => (con_stdin c, con_stdout c))
             (interactive_mode (scripted qr_script) HyphenClient 3
                               at_the_prompt)
  = Some ([Line "never read"],
          [OutBanner; OutPrompt; OutPrompt;
           OutAgent "Here is your QR code."; OutSeparator;
           OutPrompt; OutGoodbye]).
Proof. reflexivity. Qed.

Lemma process_query_without_budget_witness :
  (-5 <= 0)%Z
  /\ process_query (scripted qr_script) UnderscoreClient qr_query (-5) connected
     = (Ok "Agent reached maximum iterations without completing task",
        connected).
Proof.
  split; [lia|].
  apply (process_query_without_budget (scripted qr_script) UnderscoreClient
                                      qr_query (-5) connected).
  lia.
Defined.

Lemma unconnected_agent_answers_with_errors_witness :
  session (self fresh_world) = None
  /\ exists o messages evs,
      run_query (scripted qr_script) HyphenClient qr_query 10 fresh_world
      = (Ok (o, messages), add_events fresh_world evs)
      /\ host_calls evs = [].
Proof.
  split; [reflexivity|].
  destruct (unconnected_agent_answers_with_errors
              (scripted qr_script) qr_query 10 fresh_world eq_refl)
    as (_ & o & messages & evs & Heq & Hhost & _).
  exists o, messages, evs. split; assumption.
Defined.

Lemma connected_agent_calls_host_once_per_tool_witness :
  session (self connected) = Some studio_host
  /\ exists o messages evs,
      run_query (scripted qr_script) HyphenClient qr_query 10 connected
      = (Ok (o, messages), add_events connected evs)
      /\ host_calls evs = call_tool_calls evs.
Proof.
  split; [reflexivity|].
  destruct (connected_agent_calls_host_once_per_tool
              (scripted qr_script) qr_query 10 connected studio_host eq_refl)
    as (o & messages & evs & Heq & Hhost & _).
  exists o, messages, evs. split; assumption.
Defined.

Lemma tool_use_without_blocks_appends_empty_results_witness :
  [user_message qr_query;
   assistant_message (resp_content wants_nothing);
   tool_results_message []]
  = ([user_message qr_query]
       ++ [assistant_message (resp_content wants_nothing);
           tool_results_message []])%list.
Proof.
  exact (tool_use_without_blocks_appends_empty_results
           (scripted [wants_nothing; here_it_is]) qr_query 10 connected
           (Completed "Here is your QR code.")
           [user_message qr_query;
            assistant_message (resp_content wants_nothing);
            tool_results_message []]
           [EvRequest [user_message qr_query] qr_tools wants_nothing;
            EvRequest [user_message qr_query;
                       assistant_message (resp_content wants_nothing);
                       tool_results_message []] qr_tools here_it_is]
           [] [user_message qr_query] qr_tools wants_nothing
           [EvRequest [user_message qr_query;
                       assistant_message (resp_content wants_nothing);
                       tool_results_message []] qr_tools here_it_is]
           eq_refl eq_refl eq_refl eq_refl).
Defined.

Lemma interactive_mode_serves_until_quit_witness :
  exists c',
    interactive_mode (scripted qr_script) HyphenClient 3 at_the_prompt
    = Some c'
    /\ con_stdin c' = [Line "never read"].
Proof.
  eexists. split.
  - apply (interactive_mode_serves_until_quit
             (scripted qr_script) HyphenClient typed 3 at_the_prompt
             (Line "  QUIT ") [Line "never read"]).
    + reflexivity.
    + repeat (constructor; [reflexivity|]). constructor.
    + reflexivity.
    + simpl. lia.
  - reflexivity.
Defined.

Lemma underscore_interactive_mode_only_prints_errors_witness :
  exists out,
    interactive_mode (scripted qr_script) UnderscoreClient 3 at_the_prompt
    = Some (mkConsole connected [Line "never read"] out).
Proof.
  eexists.
  apply (underscore_interactive_mode_only_prints_errors
           (scripted qr_script) typed 3 at_the_prompt
           (Line "  QUIT ") [Line "never read"]).
  - reflexivity.
  - repeat (constructor; [reflexivity|]). constructor.
  - reflexivity.
  - simpl. lia.
Defined.


Lemma interactive_mode_never_returns_at_end_of_input_witness :
  interactive_mode (scripted qr_script) UnderscoreClient 1000
                   (mkConsole connected (map Line typed) [])
  = None.
Proof.
  apply (interactive_mode_never_returns_at_end_of_input
           (scripted qr_script) UnderscoreClient 1000
           (mkConsole connected (map Line typed) [])).
  repeat (constructor; [reflexivity|]). constructor.
Defined.

Lemma demo_server_path_is_first_argument_witness :
  demo_main (Some "sk-ant") ["demo.py"; "custom"; "content_studio_server.py"]
  = RunCustomDemo "custom".
Proof.
  apply (proj1 (demo_server_path_is_first_argument
                  (Some "sk-ant") "demo.py" "custom"
                  ["content_studio_server.py"] eq_refl)).
  reflexivity.
Defined.
